(** * GRC ML Service (packages/ml-service/src/main.py)

    A shallow embedding of the local-development ML service: the static
    model registry [MOCK_MODELS] and the four request handlers
    [health_check], [get_models], [predict] and [root].

    Python floats are IEEE 754 binary64 numbers; they are modelled by the
    specification of binary floating-point arithmetic of the standard
    library ([SpecFloat], precision 53, emax 1024).  The two library calls
    whose results the program cannot determine (the numpy generator and the
    wall clock) are an interface, [Host], threaded through the handlers. *)

From Stdlib Require Import ZArith QArith Qround Qpower Qabs List String Bool Lia Lqa.
From Stdlib Require Import Floats.SpecFloat.
Import ListNotations.
Open Scope string_scope.
Open Scope Z_scope.

#[local] Set Warnings "-register-all".

(** ** Binary64 arithmetic *)

Module B64.

Definition prec : Z := 53.
Definition emax : Z := 1024.

Definition float := spec_float.

Definition add : float -> float -> float := SFadd prec emax.
Definition mul : float -> float -> float := SFmul prec emax.
Definition div : float -> float -> float := SFdiv prec emax.
Definition ltb : float -> float -> bool := SFltb.
Definition leb : float -> float -> bool := SFleb.
Definition valid : float -> bool := valid_binary prec emax.

(** The double nearest to an integer (exact below 2^53). *)
Definition of_Z (z : Z) : float := binary_normalize prec emax z 0 false.

(** The double nearest to the fraction [n / d], for [n >= 0] and [d > 0],
    with sign [s]: this is the value of a decimal literal such as [0.847]
    (n = 847, d = 1000). *)
Definition of_ratio (s : bool) (n : Z) (d : positive) : float :=
  match n with
  | Zpos p => div (S754_finite s p 0) (S754_finite false d 0)
  | _ => S754_zero s
  end.

Definition dec (n : Z) (digits : nat) : float :=
  of_ratio false n (Z.to_pos (10 ^ Z.of_nat digits)).

(** The exact value of a float (0 for the values that are not finite). *)
Definition to_Q (x : float) : Q :=
  match x with
  | S754_finite s m e =>
      (if s then inject_Z (Zneg m) else inject_Z (Zpos m)) * (2 ^ e)%Q
  | _ => 0%Q
  end.

End B64.

Abbreviation float := B64.float.

(** ** The Python built-ins the handlers use *)

Module Py.

(** A Python number: an [int] or a [float]. *)
Inductive num :=
| Int (z : Z)
| Float (x : float).

(** [float(v)]: the conversion pydantic applies to a [float] field. *)
Definition to_float (v : num) : float :=
  match v with
  | Int z => B64.of_Z z
  | Float x => x
  end.

(** [a < b] and [a > b].  A comparison between an [int] and a [float] is
    exact in Python; the integers compared here (0 and 10) are exactly
    representable, so comparing after conversion is the same. *)
Definition lt (a b : num) : bool := B64.ltb (to_float a) (to_float b).
Definition gt (a b : num) : bool := lt b a.

(** [min(a, b)] keeps [a] unless [b < a]; [max(a, b)] keeps [a] unless
    [b > a]. *)
Definition min (a b : num) : num := if lt b a then b else a.
Definition max (a b : num) : num := if gt b a then b else a.

(** The integer nearest to a rational, ties to the even one. *)
Definition round_half_even (q : Q) : Z :=
  let f := Qfloor q in
  match Qcompare (q - inject_Z f) (1 # 2) with
  | Lt => f
  | Gt => f + 1
  | Eq => if Z.even f then f else f + 1
  end.

(** [round(x, ndigits)] for a float and [ndigits >= 0]: the exact value
    of [x] is rounded to [ndigits] decimals (ties to even) and the
    decimal obtained is converted back to the nearest double.  A float
    that is not finite is returned unchanged. *)
Definition round_float (x : float) (ndigits : nat) : float :=
  match x with
  | S754_finite s m e =>
      let scale := Z.to_pos (10 ^ Z.of_nat ndigits) in
      let k := round_half_even (Qabs (B64.to_Q x) * inject_Z (Zpos scale)) in
      B64.of_ratio s k scale
  | _ => x
  end.

(** [round(v, ndigits)]: an [int] is returned as it is when
    [ndigits >= 0]. *)
Definition round (v : num) (ndigits : nat) : num :=
  match v with
  | Int z => Int z
  | Float x => Float (round_float x ndigits)
  end.

End Py.

(** The float literals of the source. *)
Definition lit_6_5   : float := Eval vm_compute in B64.dec 65 1.
Definition lit_1_5   : float := Eval vm_compute in B64.dec 15 1.
Definition lit_0_75  : float := Eval vm_compute in B64.dec 75 2.
Definition lit_0_2   : float := Eval vm_compute in B64.dec 2 1.
Definition lit_0_7   : float := Eval vm_compute in B64.dec 7 1.
Definition lit_0_25  : float := Eval vm_compute in B64.dec 25 2.
Definition lit_0_8   : float := Eval vm_compute in B64.dec 8 1.
Definition lit_0_15  : float := Eval vm_compute in B64.dec 15 2.
Definition lit_0_6   : float := Eval vm_compute in B64.dec 6 1.
Definition lit_0_3   : float := Eval vm_compute in B64.dec 3 1.
Definition lit_0_847 : float := Eval vm_compute in B64.dec 847 3.
Definition lit_0_923 : float := Eval vm_compute in B64.dec 923 3.
(** Literals of the specification's bounds. *)
Definition lit_0_95  : float := Eval vm_compute in B64.dec 95 2.
Definition lit_0     : float := Eval vm_compute in B64.of_Z 0.
Definition lit_1     : float := Eval vm_compute in B64.of_Z 1.
Definition lit_10    : float := Eval vm_compute in B64.of_Z 10.


(** ** Data model *)

(** An entry of [MOCK_MODELS]: a dict with the six keys below. *)
Record ModelRecord := {
  mr_id : string;
  mr_name : string;
  mr_type : string;
  mr_status : string;
  mr_accuracy : float;
  mr_version : string
}.

Record HealthResponse := {
  status : string;
  timestamp : string;
  models_loaded : Z
}.

Record ModelInfo := {
  id : string;
  name : string;
  type : string;
  mi_status : string;
  accuracy : float;
  version : string
}.

(** A JSON value, for the [Dict[str, Any]] of a request. *)
Inductive json :=
| JNull
| JBool (b : bool)
| JNumber (x : float)
| JString (s : string)
| JArray (l : list json)
| JObject (l : list (string * json)).

Record PredictionRequest := {
  tenant_id : string;
  model_type : string;
  data : list (string * json)
}.

Record PredictionResponse := {
  prediction : float;
  confidence : float;
  model_version : string;
  pr_timestamp : string
}.

Record HTTPException := {
  status_code : Z;
  detail : string
}.

Record RootResponse := {
  service : string;
  root_version : string;
  root_status : string;
  endpoints : list (string * string)
}.

(** Mock models registry for local development. *)
Definition MOCK_MODELS : list ModelRecord :=
  [ {| mr_id := "risk-predictor-local";
       mr_name := "Risk Prediction Model (Local)";
       mr_type := "risk_prediction";
       mr_status := "active";
       mr_accuracy := lit_0_847;
       mr_version := "1.0.0-local" |};
    {| mr_id := "data-quality-local";
       mr_name := "Data Quality Checker (Local)";
       mr_type := "data_quality";
       mr_status := "active";
       mr_accuracy := lit_0_923;
       mr_version := "1.0.0-local" |} ].

(** ** The host: numpy's generator and the clock

    [np.random.normal(loc, scale)], [np.random.random()] and
    [datetime.now().isoformat()] read and advance state that lives outside
    the program.  Called without a size, the two numpy functions return a
    Python float. *)
Class Host (E : Type) := {
  np_random_normal : float -> float -> E -> float * E;
  np_random_random : E -> float * E;
  datetime_now_isoformat : E -> string * E
}.

(** What numpy documents about the two draws: both are doubles, and
    [random()] lies in the half-open interval [0.0, 1.0). *)
Definition numpy_contract {E} `{Host E} : Prop :=
  (forall loc scale e, B64.valid (fst (np_random_normal loc scale e)) = true) /\
  (forall e, let u := fst (np_random_random e) in
             B64.valid u = true /\ B64.leb lit_0 u = true /\ B64.ltb u lit_1 = true).

(** [max(0, min(10, prediction))]: clamp to 0-10. *)
Definition clamp (prediction : float) : Py.num :=
  Py.max (Py.Int 0) (Py.min (Py.Int 10) (Py.Float prediction)).

(** ** Handlers as state transformers *)

(** A handler returns a value or raises an [HTTPException]. *)
Inductive result (A : Type) :=
| Ok (a : A)
| Raise (exn : HTTPException).
Arguments Ok {A} a.
Arguments Raise {A} exn.

Section Service.

Context {E : Type} `{Host E}.

(** The process state: the module-level list and the host. *)
Record World := {
  registry : list ModelRecord;
  host : E
}.

Definition handler (A : Type) := World -> result A * World.

Definition ret {A} (a : A) : handler A := fun w => (Ok a, w).
Definition raise {A} (exn : HTTPException) : handler A := fun w => (Raise exn, w).
Definition bind {A B} (m : handler A) (k : A -> handler B) : handler B :=
  fun w => match m w with
           | (Ok a, w') => k a w'
           | (Raise exn, w') => (Raise exn, w')
           end.

Notation "x <- m ;; k" := (bind m (fun x => k))
  (at level 61, m at next level, right associativity).

Definition read_MOCK_MODELS : handler (list ModelRecord) :=
  fun w => (Ok (registry w), w).

(** A call into the host advances the host and nothing else. *)
Definition with_host (w : World) (e : E) : World :=
  {| registry := registry w; host := e |}.

Definition lift_host {A} (f : E -> A * E) : handler A :=
  fun w => let (a, e') := f (host w) in (Ok a, with_host w e').

Definition normal (loc scale : float) : handler float :=
  lift_host (np_random_normal loc scale).
Definition random : handler float := lift_host np_random_random.
Definition now_isoformat : handler string := lift_host datetime_now_isoformat.

(** Health check endpoint *)
Definition health_check : handler HealthResponse :=
  ts <- now_isoformat ;;
  models <- read_MOCK_MODELS ;;
  ret {| status := "healthy";
         timestamp := ts;
         models_loaded := Z.of_nat (List.length models) |}.

(** The keyword expansion of a registry dict into a [ModelInfo]. *)
Definition ModelInfo_of (model : ModelRecord) : ModelInfo :=
  {| id := mr_id model;
     name := mr_name model;
     type := mr_type model;
     mi_status := mr_status model;
     accuracy := mr_accuracy model;
     version := mr_version model |}.

(** Get available ML models *)
Definition get_models : handler (list ModelInfo) :=
  models <- read_MOCK_MODELS ;;
  ret (List.map ModelInfo_of models).

(** [next((m for m in MOCK_MODELS if m["type"] == model_type), None)].
    The test [if not model] that follows holds exactly when the result is
    [None]: a registry dict has six keys and so is never falsy. *)
Definition find_model (models : list ModelRecord) (model_type : string)
  : option ModelRecord :=
  List.find (fun m => String.eqb (mr_type m) model_type) models.

(** The three branches of the prediction computation; each returns the
    pair (prediction, confidence) before rounding. *)
Definition risk_branch : handler (Py.num * Py.num) :=
  prediction <- normal lit_6_5 lit_1_5 ;;
  let prediction := clamp prediction in
  u <- random ;;
  let confidence := B64.add lit_0_75 (B64.mul u lit_0_2) in
  ret (prediction, Py.Float confidence).

Definition quality_branch : handler (Py.num * Py.num) :=
  u <- random ;;
  let prediction := B64.add lit_0_7 (B64.mul u lit_0_25) in
  u' <- random ;;
  let confidence := B64.add lit_0_8 (B64.mul u' lit_0_15) in
  ret (Py.Float prediction, Py.Float confidence).

Definition generic_branch : handler (Py.num * Py.num) :=
  prediction <- random ;;
  u <- random ;;
  let confidence := B64.add lit_0_6 (B64.mul u lit_0_3) in
  ret (Py.Float prediction, Py.Float confidence).

(** The if / elif / else on [request.model_type], with the body of the
    else branch as a parameter. *)
Definition scores_with (fallback : handler (Py.num * Py.num))
    (model_type : string) : handler (Py.num * Py.num) :=
  if String.eqb model_type "risk_prediction" then risk_branch
  else if String.eqb model_type "data_quality" then quality_branch
  else fallback.

Definition not_found (model_type : string) : HTTPException :=
  {| status_code := 404;
     detail := "Model type '" ++ model_type ++ "' not found" |}.

(** Make ML predictions *)
Definition predict_with (fallback : handler (Py.num * Py.num))
    (request : PredictionRequest) : handler PredictionResponse :=
  models <- read_MOCK_MODELS ;;
  match find_model models (model_type request) with
  | None => raise (not_found (model_type request))
  | Some model =>
      pc <- scores_with fallback (model_type request) ;;
      let (prediction, confidence) := pc in
      ts <- now_isoformat ;;
      ret {| prediction := Py.to_float (Py.round prediction 3);
             confidence := Py.to_float (Py.round confidence 3);
             model_version := mr_version model;
             pr_timestamp := ts |}
  end.

Definition scores := scores_with generic_branch.
Definition predict := predict_with generic_branch.

(** Root endpoint *)
Definition root : handler RootResponse :=
  ret {| service := "GRC ML Service";
         root_version := "0.1.0-local";
         root_status := "running";
         endpoints := [ ("health", "/health");
                        ("models", "/models");
                        ("predict", "/predict") ] |}.

(** *** The routes *)

Inductive request :=
| GET_health
| GET_models
| POST_predict (body : PredictionRequest)
| GET_root.

Inductive response :=
| Health (r : HealthResponse)
| Models (r : list ModelInfo)
| Prediction (r : PredictionResponse)
| Root (r : RootResponse).

Definition fmap {A B} (f : A -> B) (m : handler A) : handler B :=
  a <- m ;; ret (f a).

Definition serve (rq : request) : handler response :=
  match rq with
  | GET_health => fmap Health health_check
  | GET_models => fmap Models get_models
  | POST_predict body => fmap Prediction (predict body)
  | GET_root => fmap Root root
  end.

(** The state of the process at start-up and after any number of
    requests. *)
Definition startup (e : E) : World := {| registry := MOCK_MODELS; host := e |}.

Inductive reachable : World -> Prop :=
| reach_startup e : reachable (startup e)
| reach_serve w rq : reachable w -> reachable (snd (serve rq w)).

End Service.

Arguments World E : clear implicits.

(** ** A concrete host

    A scripted generator and clock, used to run the handlers: the state is
    the number of calls made so far. *)
Definition sample_uniform : float := Eval vm_compute in B64.of_ratio false 1023 1024.
Definition sample_normal : float := Eval vm_compute in B64.dec 7125 3.
Definition lit_12_5 : float := Eval vm_compute in B64.dec 125 1.

#[export] Instance ScriptedHost : Host nat := {
  np_random_normal := fun _ _ n =>
    (if Nat.even n then sample_normal else lit_12_5, S n);
  np_random_random := fun n =>
    (if Nat.eqb (Nat.modulo n 5) 4 then lit_0 else sample_uniform, S n);
  datetime_now_isoformat := fun n => ("2024-01-01T00:00:00.000000", S n)
}.

(** ** Auxiliary definitions *)

Section Shapes.

Context {E : Type} `{Host E}.

(** The response built from a matched record and a pair of scores. *)
Definition respond (model : ModelRecord) (pc : Py.num * Py.num)
    (w : World E) : result PredictionResponse * World E :=
  let t := datetime_now_isoformat (host w) in
  (Ok {| prediction := Py.to_float (Py.round (fst pc) 3);
         confidence := Py.to_float (Py.round (snd pc) 3);
         model_version := mr_version model;
         pr_timestamp := fst t |},
   with_host w (snd t)).

End Shapes.

(** The float that [binary_round_aux] builds from a mantissa and an
    exponent once the shifts are done. *)
Definition rounded (m3 e3 : Z) : spec_float :=
  match m3 with
  | Z0 => S754_zero false
  | Zpos p => if e3 <=? 971 then S754_finite false p e3 else S754_infinity false
  | Zneg _ => S754_nan
  end.

(** A bounded universal check over consecutive integers. *)
Fixpoint all_from (f : Z -> bool) (lo : Z) (n : nat) : bool :=
  match n with
  | O => true
  | S n' => f lo && all_from f (lo + 1) n'
  end.

Definition within (a b x : float) : bool := B64.leb a x && B64.leb x b.

(** The double that the decimal [k / 1000] denotes. *)
Definition thousandth (k : Z) : float := B64.of_ratio false k 1000.

(** [out] is [raw] rounded to three decimal places: an [int] is kept, a
    finite float becomes the double of the decimal [k / 1000] for an
    integer [k] nearest to a thousand times its value, and the other
    floats (zeros, infinities, NaN) are kept. *)
Definition rounds_to_3 (raw : Py.num) (out : float) : Prop :=
  match raw with
  | Py.Int z => out = B64.of_Z z
  | Py.Float (S754_finite s m e) =>
      exists k : Z,
        out = B64.of_ratio s k 1000 /\
        (Qabs (inject_Z k - Qabs (B64.to_Q (S754_finite s m e)) * 1000) <= 1 # 2)%Q
  | Py.Float x => out = x
  end.

Ltac qle_compute := apply Qle_bool_imp_le; vm_compute; reflexivity.

(** Sample requests. *)
Definition sample_risk_request : PredictionRequest :=
  {| tenant_id := "t1"; model_type := "risk_prediction"; data := [] |}.

Definition sample_quality_request : PredictionRequest :=
  {| tenant_id := "t1"; model_type := "data_quality"; data := [] |}.

Definition sample_other_request : PredictionRequest :=
  {| tenant_id := "t2"; model_type := "data_quality";
     data := [("records", JArray [JNumber lit_0_25; JNull])] |}.

Definition sample_unknown_request : PredictionRequest :=
  {| tenant_id := "t1"; model_type := "anomaly_detection"; data := [] |}.

(** ** Definitions for the properties beyond the registry as shipped *)

Definition lit_0_9 : float := Eval vm_compute in B64.dec 9 1.

(** Structural equality of two floats. *)
Definition float_eqb (x y : float) : bool :=
  match x, y with
  | S754_zero s1, S754_zero s2 => Bool.eqb s1 s2
  | S754_infinity s1, S754_infinity s2 => Bool.eqb s1 s2
  | S754_nan, S754_nan => true
  | S754_finite s1 m1 e1, S754_finite s2 m2 e2 =>
      Bool.eqb s1 s2 && Pos.eqb m1 m2 && Z.eqb e1 e2
  | _, _ => false
  end.

(** A state whose registry has a third record, of a type that neither
    built-in branch handles. *)
Definition sample_dynamic_world : World nat :=
  {| registry :=
       (MOCK_MODELS ++
        [ {| mr_id := "anomaly-local";
             mr_name := "Anomaly Detector (Local)";
             mr_type := "anomaly_detection";
             mr_status := "active";
             mr_accuracy := lit_0_9;
             mr_version := "0.3.0-local" |} ])%list;
     host := 0%nat |}.

(** ** Unfolding the handlers *)

Section Unfold.

Context {E : Type} `{Host E}.

Lemma risk_branch_eq (w : World E) :
  let d1 := np_random_normal lit_6_5 lit_1_5 (host w) in
  let d2 := np_random_random (snd d1) in
  risk_branch w =
    (Ok (clamp (fst d1),
         Py.Float (B64.add lit_0_75 (B64.mul (fst d2) lit_0_2))),
     with_host w (snd d2)).
Proof.
  cbv zeta. unfold risk_branch, bind, normal, random, lift_host, ret, clamp, with_host.
  destruct (np_random_normal lit_6_5 lit_1_5 (host w)) as [x e1]. cbn.
  destruct (np_random_random e1) as [u e2]. reflexivity.
Qed.

Lemma quality_branch_eq (w : World E) :
  let d1 := np_random_random (host w) in
  let d2 := np_random_random (snd d1) in
  quality_branch w =
    (Ok (Py.Float (B64.add lit_0_7 (B64.mul (fst d1) lit_0_25)),
         Py.Float (B64.add lit_0_8 (B64.mul (fst d2) lit_0_15))),
     with_host w (snd d2)).
Proof.
  cbv zeta. unfold quality_branch, bind, random, lift_host, ret, with_host.
  destruct (np_random_random (host w)) as [u e1]. cbn.
  destruct (np_random_random e1) as [u' e2]. reflexivity.
Qed.

Lemma generic_branch_eq (w : World E) :
  let d1 := np_random_random (host w) in
  let d2 := np_random_random (snd d1) in
  generic_branch w =
    (Ok (Py.Float (fst d1),
         Py.Float (B64.add lit_0_6 (B64.mul (fst d2) lit_0_3))),
     with_host w (snd d2)).
Proof.
  cbv zeta. unfold generic_branch, bind, random, lift_host, ret, with_host.
  destruct (np_random_random (host w)) as [u e1]. cbn.
  destruct (np_random_random e1) as [u' e2]. reflexivity.
Qed.

Lemma predict_with_eq fallback rq w :
  predict_with fallback rq w =
    match find_model (registry w) (model_type rq) with
    | None => (Raise (not_found (model_type rq)), w)
    | Some model =>
        match scores_with fallback (model_type rq) w with
        | (Ok pc, w1) => respond model pc w1
        | (Raise exn, w1) => (Raise exn, w1)
        end
    end.
Proof.
  unfold predict_with, bind, read_MOCK_MODELS.
  destruct (find_model (registry w) (model_type rq)) as [model|]; [|reflexivity].
  destruct (scores_with fallback (model_type rq) w) as [[[p c]|exn] w1]; [|reflexivity].
  unfold respond, now_isoformat, lift_host, ret, with_host. cbn.
  destruct (datetime_now_isoformat (host w1)) as [ts e2]. reflexivity.
Qed.

(** The built-in branches never raise and leave the registry alone. *)
Lemma builtin_scores fallback t w :
  t = "risk_prediction" \/ t = "data_quality" ->
  exists pc e, scores_with fallback t w = (Ok pc, with_host w e).
Proof.
  intros [-> | ->]; unfold scores_with; cbn.
  - rewrite risk_branch_eq. eauto.
  - rewrite quality_branch_eq. eauto.
Qed.

Lemma scores_total t w :
  exists pc e, scores t w = (Ok pc, with_host w e).
Proof.
  unfold scores, scores_with.
  destruct (String.eqb t "risk_prediction").
  - rewrite risk_branch_eq. eauto.
  - destruct (String.eqb t "data_quality").
    + rewrite quality_branch_eq. eauto.
    + rewrite generic_branch_eq. eauto.
Qed.

Lemma predict_registry rq w : registry (snd (predict rq w)) = registry w.
Proof.
  unfold predict. rewrite predict_with_eq.
  destruct (find_model (registry w) (model_type rq)); [|reflexivity].
  destruct (scores_total (model_type rq) w) as (pc & e & Hs).
  unfold scores in Hs. rewrite Hs. reflexivity.
Qed.

Lemma health_check_eq (w : World E) :
  let t := datetime_now_isoformat (host w) in
  health_check w =
    (Ok {| status := "healthy"; timestamp := fst t;
           models_loaded := Z.of_nat (List.length (registry w)) |},
     with_host w (snd t)).
Proof.
  cbv zeta. unfold health_check, bind, now_isoformat, lift_host, read_MOCK_MODELS, ret, with_host.
  destruct (datetime_now_isoformat (host w)) as [ts e]. reflexivity.
Qed.

Lemma get_models_eq (w : World E) :
  get_models w = (Ok (List.map ModelInfo_of (registry w)), w).
Proof. reflexivity. Qed.

Lemma serve_registry rq w : registry (snd (serve rq w)) = registry w.
Proof.
  destruct rq as [| |body|]; unfold serve, fmap, bind.
  - rewrite health_check_eq. reflexivity.
  - rewrite get_models_eq. reflexivity.
  - pose proof (predict_registry body w) as Hp.
    destruct (predict body w) as [[r|exn] w']; exact Hp.
  - reflexivity.
Qed.

(** The registry is the static list in every state the process reaches. *)
Lemma reachable_registry w : reachable w -> registry w = MOCK_MODELS.
Proof.
  induction 1 as [e|w rq _ IH].
  - reflexivity.
  - rewrite serve_registry. exact IH.
Qed.

(** [find_model] returns the first record of the given type. *)
Lemma find_model_first l t m :
  find_model l t = Some m <->
  exists l1 l2, l = (l1 ++ m :: l2)%list /\ mr_type m = t /\
                (forall m', In m' l1 -> mr_type m' <> t).
Proof.
  unfold find_model. induction l as [|a l IH]; cbn.
  - split; [discriminate|]. intros (l1 & l2 & Hl & _). destruct l1; discriminate.
  - destruct (String.eqb_spec (mr_type a) t) as [Heq|Hne].
    + split.
      * intros [= <-]. exists [], l. cbn. repeat split; auto.
      * intros (l1 & l2 & Hl & Hm & Hfirst). destruct l1 as [|b l1]; cbn in Hl.
        -- congruence.
        -- injection Hl as <- _. exfalso. apply (Hfirst a); cbn; auto.
    + rewrite IH. split.
      * intros (l1 & l2 & -> & Hm & Hfirst). exists (a :: l1), l2. cbn.
        repeat split; auto. intros m' [<-|Hin]; auto.
      * intros (l1 & l2 & Hl & Hm & Hfirst). destruct l1 as [|b l1]; cbn in Hl.
        -- injection Hl as -> _. contradiction.
        -- injection Hl as <- ->. exists l1, l2. repeat split; auto.
           intros m' Hin. apply Hfirst. cbn. auto.
Qed.

Lemma find_model_none l t :
  find_model l t = None <-> (forall m, In m l -> mr_type m <> t).
Proof.
  unfold find_model. split.
  - intros Hnone m Hin Heq.
    pose proof (find_none _ _ Hnone m Hin) as Hf. cbn in Hf.
    apply String.eqb_neq in Hf. contradiction.
  - intros Hall. destruct (find _ l) as [m|] eqn:Hf; [|reflexivity].
    apply find_some in Hf. destruct Hf as [Hin Heq].
    apply String.eqb_eq in Heq. exfalso. exact (Hall m Hin Heq).
Qed.

(** Lookup in the static list. *)
Lemma find_MOCK_MODELS t m :
  find_model MOCK_MODELS t = Some m ->
  (t = "risk_prediction" \/ t = "data_quality") /\
  mr_type m = t /\ mr_version m = "1.0.0-local".
Proof.
  unfold find_model, MOCK_MODELS. cbn [find mr_type].
  destruct (String.eqb_spec "risk_prediction" t) as [<-|_].
  - intros [= <-]. cbn. auto.
  - destruct (String.eqb_spec "data_quality" t) as [<-|_].
    + intros [= <-]. cbn. auto.
    + discriminate.
Qed.

End Unfold.
(** ** Binary64 rounding on integers *)

Section Rounding.

Open Scope Z_scope.

Lemma digits2_pos_size m : digits2_pos m = Pos.size m.
Proof. induction m; cbn; congruence. Qed.

Lemma digits2_bounds m :
2 ^ (Zpos (digits2_pos m) - 1) <= Zpos m < 2 ^ Zpos (digits2_pos m).
Proof.
rewrite digits2_pos_size.
pose proof (Pos.size_gt m) as Hgt. pose proof (Pos.size_le m) as Hle.
apply Pos2Z.pos_lt_pos in Hgt. apply Pos2Z.pos_le_pos in Hle.
rewrite Pos2Z.inj_pow in Hgt, Hle.
assert (Hp : 2 ^ Zpos (Pos.size m) = 2 * 2 ^ (Zpos (Pos.size m) - 1)).
{ rewrite <- Z.pow_succ_r by lia. f_equal. lia. }
change ((2 * 1) ^ Z.pos (Pos.size m)) with (2 ^ Z.pos (Pos.size m)) in Hle.
change (Z.pos m~0) with (2 * Z.pos m) in Hle.
lia.
Qed.

Lemma shr_1_m mrs : 0 <= shr_m mrs -> shr_m (shr_1 mrs) = shr_m mrs / 2.
Proof.
destruct mrs as [m r s]. cbn [shr_m]. intros Hm.
destruct m as [|[p|p|]|p]; cbn [shr_1 shr_m]; try lia; try reflexivity.
- apply Z.div_unique with 1; lia.
- apply Z.div_unique with 0; lia.
Qed.

Lemma iter_shr_m p : forall mrs, 0 <= shr_m mrs ->
shr_m (iter_pos shr_1 p mrs) = shr_m mrs / 2 ^ Zpos p.
Proof.
assert (Hnn : forall mrs, 0 <= shr_m mrs -> 0 <= shr_m (shr_1 mrs)).
{ intros mrs Hm. rewrite shr_1_m by assumption. apply Z.div_pos; lia. }
induction p as [p IH|p IH|]; intros mrs Hm; cbn [iter_pos].
- assert (H1 := Hnn _ Hm).
  rewrite IH by (rewrite IH by assumption; apply Z.div_pos; lia).
  rewrite IH by assumption. rewrite shr_1_m by assumption.
  rewrite !Z.div_div by lia. f_equal.
  replace (Z.pos p~1) with (1 + (Z.pos p + Z.pos p)) by lia.
  rewrite !Z.pow_add_r by lia. lia.
- rewrite IH by (rewrite IH by assumption; apply Z.div_pos; lia).
  rewrite IH by assumption.
  rewrite !Z.div_div by lia. f_equal.
  replace (Z.pos p~0) with (Z.pos p + Z.pos p) by lia.
  rewrite !Z.pow_add_r by lia. lia.
- rewrite shr_1_m by assumption. reflexivity.
Qed.

Lemma round_nearest_even_range m l :
m <= round_nearest_even m l <= m + 1.
Proof.
destruct l as [|[| |]]; cbn; try lia. destruct (Z.even m); lia.
Qed.

Lemma fexp_eq z : fexp 53 1024 z = Z.max (z - 53) (-1074).
Proof. reflexivity. Qed.

Lemma pow2_le_inv a b : 0 <= b -> 2 ^ a <= 2 ^ b -> a <= b.
Proof.
intros Hb Hle. destruct (Z_lt_le_dec a 0) as [Ha|Ha]; [lia|].
apply (Z.pow_le_mono_r_iff 2); lia.
Qed.

Lemma div_pow2_bounds m p :
0 <= m -> 0 <= p -> (m / 2 ^ p) * 2 ^ p <= m < (m / 2 ^ p + 1) * 2 ^ p.
Proof.
intros Hm Hp. assert (H2 : 0 < 2 ^ p) by (apply Z.pow_pos_nonneg; lia).
pose proof (Z.mul_div_le m (2 ^ p) H2).
pose proof (Z.mul_succ_div_gt m (2 ^ p) H2). lia.
Qed.

Lemma binary_round_aux_exact m e :
let d := Zpos (digits2_pos m) in
exists m3 e3,
  binary_round_aux 53 1024 false (Zpos m) e loc_Exact = rounded m3 e3 /\
  0 <= m3 /\ e <= e3 <= Z.max e (Z.max (d + e - 52) (-1074)) /\
  Zpos m - 2 * 2 ^ (e3 - e) < m3 * 2 ^ (e3 - e) <= Zpos m + 2 ^ (e3 - e).
Proof.
intros d. unfold binary_round_aux, shr_fexp.
cbn [Zdigits2 shr_record_of_loc]. fold d. rewrite fexp_eq.
pose proof (digits2_bounds m) as Hd. fold d in Hd.
destruct (Z.max (d + e - 53) (-1074) - e) as [|p|p] eqn:Hn; cbn [shr].
- cbn [loc_of_shr_record shr_m round_nearest_even Zdigits2]. fold d.
  rewrite fexp_eq, Hn. cbn [shr shr_m].
  exists (Zpos m), e. rewrite Z.sub_diag. cbn [rounded]. repeat split; lia.
- set (mrs := iter_pos shr_1 p _).
  assert (Hm1 : shr_m mrs = Zpos m / 2 ^ Zpos p).
  { unfold mrs. rewrite iter_shr_m; cbn [shr_m]; [reflexivity|lia]. }
  pose proof (round_nearest_even_range (shr_m mrs) (loc_of_shr_record mrs)) as Hr.
  set (m2 := round_nearest_even (shr_m mrs) (loc_of_shr_record mrs)) in *.
  rewrite Hm1 in Hr.
  pose proof (div_pow2_bounds (Zpos m) (Zpos p) ltac:(lia) ltac:(lia)) as Hdiv.
  set (m1 := Zpos m / 2 ^ Zpos p) in *.
  assert (Hm1nn : 0 <= m1) by (apply Z.div_pos; lia).
  assert (H2p : 0 < 2 ^ Zpos p) by (apply Z.pow_pos_nonneg; lia).
  rewrite fexp_eq.
  destruct (Z.max (Zdigits2 m2 + (e + Zpos p) - 53) (-1074) - (e + Zpos p))
    as [|p2|p2] eqn:Hn2; cbn [shr shr_m].
  + exists m2, (e + Zpos p). replace (e + Zpos p - e) with (Zpos p) by lia.
    split; [destruct m2; try reflexivity; lia|]. repeat split; try lia; try nia.
  + assert (Hm2pos : 0 < m2).
    { destruct m2 as [|q|q]; try lia. cbn [Zdigits2] in Hn2. lia. }
    assert (Hm3 : shr_m (iter_pos shr_1 p2 {| shr_m := m2; shr_r := false; shr_s := false |})
                  = m2 / 2 ^ Zpos p2).
    { rewrite iter_shr_m; cbn [shr_m]; [reflexivity|lia]. }
    rewrite Hm3.
    pose proof (div_pow2_bounds m2 (Zpos p2) ltac:(lia) ltac:(lia)) as Hdiv2.
    set (m3 := m2 / 2 ^ Zpos p2) in *.
    assert (Hm3nn : 0 <= m3) by (apply Z.div_pos; [lia|apply Z.pow_pos_nonneg; lia]).
    assert (H2p2 : 0 < 2 ^ Zpos p2) by (apply Z.pow_pos_nonneg; lia).
    exists m3, (e + Zpos p + Zpos p2).
    replace (e + Zpos p + Zpos p2 - e) with (Zpos p + Zpos p2) by lia.
    rewrite Z.pow_add_r by lia.
    split; [destruct m3; try reflexivity; lia|].
    split; [lia|]. split.
    * split; [lia|].
      (* the exponent after the second shift *)
      destruct m2 as [|q|q]; try lia. cbn [Zdigits2] in Hn2.
      pose proof (digits2_bounds q) as Hq. set (dq := Zpos (digits2_pos q)) in *.
      destruct (Z_le_gt_dec (Zpos p) d) as [Hpd|Hpd].
      -- assert (Hlt : m1 < 2 ^ (d - Zpos p)).
         { apply Z.div_lt_upper_bound; [lia|].
           rewrite <- Z.pow_add_r by lia. replace (Zpos p + (d - Zpos p)) with d by lia. lia. }
         assert (dq - 1 <= d - Zpos p) by (apply pow2_le_inv; lia).
         lia.
      -- assert (Hz : m1 = 0).
         { apply Z.div_small. split; [lia|].
           apply Z.lt_le_trans with (2 ^ d); [lia|]. apply Z.pow_le_mono_r; lia. }
         assert (dq - 1 <= 0) by (apply pow2_le_inv; [lia|]; change (2 ^ 0) with 1; lia).
         lia.
    * split; nia.
  + exists m2, (e + Zpos p). replace (e + Zpos p - e) with (Zpos p) by lia.
    split; [destruct m2; try reflexivity; lia|]. repeat split; try lia; try nia.
- cbn [loc_of_shr_record shr_m round_nearest_even Zdigits2]. fold d.
  rewrite fexp_eq, Hn. cbn [shr shr_m].
  exists (Zpos m), e. rewrite Z.sub_diag. cbn [rounded]. repeat split; lia.
Qed.

End Rounding.

(** ** Bounds on exact values *)

Section ExactValues.

Open Scope Q_scope.

Lemma pow2_pos e : 0 < 2 ^ e.
Proof. apply Qpower_0_lt. reflexivity. Qed.

Lemma pow2_add a b : 2 ^ (a + b) == 2 ^ a * 2 ^ b.
Proof. apply Qpower_plus. discriminate. Qed.

Lemma pow2_le a b : (a <= b)%Z -> 2 ^ a <= 2 ^ b.
Proof. intros. apply Qpower_le_compat_l; [assumption|discriminate]. Qed.

Lemma pow2_lt_inv a b : 2 ^ a < 2 ^ b -> (a < b)%Z.
Proof. intros. apply (Qpower_lt_compat_l_inv 2); [assumption|reflexivity]. Qed.

Lemma pow2_Z n : (0 <= n)%Z -> inject_Z (2 ^ n) == 2 ^ n.
Proof. intros. apply (Zpower_Qpower 2 n). assumption. Qed.

Lemma to_Q_rounded m3 e3 :
(0 <= m3)%Z -> (e3 <= 971)%Z ->
(rounded m3 e3 = S754_zero false \/
 exists p, rounded m3 e3 = S754_finite false p e3) /\
B64.to_Q (rounded m3 e3) == inject_Z m3 * 2 ^ e3.
Proof.
intros Hm He. destruct m3 as [|p|p]; cbn [rounded]; [| |lia].
- split; [auto|]. cbn. ring.
- apply Z.leb_le in He. rewrite He. split; [eauto|]. reflexivity.
Qed.

Lemma binary_round_aux_Q m e J K :
inject_Z (Zpos m) * 2 ^ e < 2 ^ J ->
(e <= K)%Z -> (J - 52 <= K)%Z -> (-1074 <= K <= 971)%Z ->
let r := binary_round_aux 53 1024 false (Zpos m) e loc_Exact in
(r = S754_zero false \/ exists m3 e3, r = S754_finite false m3 e3) /\
inject_Z (Zpos m) * 2 ^ e - 2 * 2 ^ K < B64.to_Q r /\
B64.to_Q r <= inject_Z (Zpos m) * 2 ^ e + 2 ^ K.
Proof.
intros HV HeK HJK HK r.
destruct (binary_round_aux_exact m e) as (m3 & e3 & Hr & Hnn & He3 & Hlo & Hhi).
fold r in Hr. cbv zeta in He3.
pose proof (digits2_bounds m) as [Hd _].
set (d := Zpos (digits2_pos m)) in *.
assert (HdJ : (d - 1 + e < J)%Z).
{ apply pow2_lt_inv. rewrite pow2_add.
  apply Qle_lt_trans with (inject_Z (Zpos m) * 2 ^ e); [|assumption].
  apply Qmult_le_compat_r; [|apply Qlt_le_weak, pow2_pos].
  rewrite <- pow2_Z by (unfold d; lia). rewrite <- Zle_Qle. assumption. }
assert (He3K : (e3 <= K)%Z) by lia.
destruct (to_Q_rounded m3 e3 Hnn ltac:(lia)) as [Hshape Hval].
rewrite Hr. split.
{ destruct Hshape as [->|[p ->]]; eauto. }
rewrite Hval.
set (N := (e3 - e)%Z) in *.
assert (HN : (0 <= N)%Z) by (unfold N; lia).
rewrite Zlt_Qlt in Hlo. rewrite Zle_Qle in Hhi.
unfold Z.sub in Hlo.
rewrite inject_Z_plus, inject_Z_opp, !inject_Z_mult in Hlo.
rewrite inject_Z_plus, inject_Z_mult in Hhi.
rewrite pow2_Z in Hlo, Hhi by assumption.
assert (He3' : 2 ^ e3 == 2 ^ N * 2 ^ e).
{ rewrite <- pow2_add. unfold N. replace (e3 - e + e)%Z with e3 by lia. reflexivity. }
pose proof (pow2_pos e) as Hpe. pose proof (pow2_pos N) as HpN.
pose proof (pow2_le e3 K He3K) as HpK.
rewrite He3' in *.
set (a := 2 ^ N) in *. set (b := 2 ^ e) in *. set (k := 2 ^ K) in *.
set (M := inject_Z (Zpos m)) in *. set (M3 := inject_Z m3) in *.
change (inject_Z 2) with 2 in Hlo.
assert (H1 : (M + - (2 * a)) * b < M3 * a * b) by (apply Qmult_lt_compat_r; assumption).
assert (H2 : M3 * a * b <= (M + a) * b) by (apply Qmult_le_compat_r; [assumption|lra]).
split; [|lra]. lra.
Qed.

Lemma valid_finite s m e :
B64.valid (S754_finite s m e) = true ->
(Zpos m < 9007199254740992)%Z /\ (-1074 <= e <= 971)%Z /\
(-1074 < e -> 4503599627370496 <= Zpos m)%Z.
Proof.
unfold B64.valid, valid_binary, bounded, canonical_mantissa, B64.prec, B64.emax.
rewrite fexp_eq. intros Hv. apply andb_prop in Hv as [Hc Hb].
apply Z.eqb_eq in Hc. apply Z.leb_le in Hb.
pose proof (digits2_bounds m) as [Hlo Hhi].
set (d := Zpos (digits2_pos m)) in *.
assert (Hd : (d <= 53)%Z) by lia.
split.
{ apply Z.lt_le_trans with (2 ^ d)%Z; [assumption|].
  change 9007199254740992%Z with (2 ^ 53)%Z.
  apply Z.pow_le_mono_r; lia. }
split; [lia|]. intros He.
assert (d = 53)%Z as Hd53 by lia. rewrite Hd53 in Hlo. exact Hlo.
Qed.


Lemma ltb_finite_pos m1 e1 m2 e2 :
SFltb (S754_finite false m1 e1) (S754_finite false m2 e2) = true ->
(e1 < e2)%Z \/ (e1 = e2 /\ (Zpos m1 < Zpos m2)%Z).
Proof.
unfold SFltb. cbn [SFcompare].
destruct (Z.compare_spec e1 e2) as [Heq|Hl|Hg]; [|auto|discriminate].
rewrite Pos.compare_cont_spec. cbn [Pos.switch_Eq].
destruct (Pos.compare_spec m1 m2) as [|Hc|]; try discriminate.
intros _. right. split; [assumption|]. apply Pos2Z.pos_lt_pos. assumption.
Qed.

Lemma unit_interval_cases u :
B64.valid u = true -> B64.leb lit_0 u = true -> B64.ltb u lit_1 = true ->
(exists s, u = S754_zero s) \/
(exists m e, u = S754_finite false m e /\ (e <= -53)%Z /\
             inject_Z (Zpos m) * 2 ^ e < 1).
Proof.
intros Hv Hle Hlt. destruct u as [s|[|]| |s m e].
- left. eauto.
- discriminate Hle.
- discriminate Hlt.
- discriminate Hlt.
- right. destruct s; [discriminate Hle|].
  destruct (valid_finite _ _ _ Hv) as (Hm & He & Hnorm).
  apply ltb_finite_pos in Hlt.
  assert (He53 : (e <= -53)%Z).
  { destruct Hlt as [Hl|[Heq Hc]]; [lia|].
    assert (4503599627370496 <= Zpos m)%Z by (apply Hnorm; lia).
    lia. }
  exists m, e. repeat split; auto.
  apply Qle_lt_trans with (inject_Z (Zpos m) * 2 ^ (-53)).
  + apply Qmult_le_l; [reflexivity|]. apply pow2_le. assumption.
  + rewrite Zlt_Qlt in Hm.
    assert (H53 : inject_Z 9007199254740992 * 2 ^ (-53) == 1) by (vm_compute; reflexivity).
    rewrite <- H53. apply Qmult_lt_compat_r; [apply pow2_pos|assumption].
Qed.

Lemma iter_xO_Z d m : Zpos (Pos.iter xO m d) = (Zpos m * 2 ^ Zpos d)%Z.
Proof.
revert m. induction d using Pos.peano_ind; intros m.
- cbn. lia.
- rewrite Pos.iter_succ. rewrite Pos2Z.inj_xO, IHd, Pos2Z.inj_succ, Z.pow_succ_r by lia.
  lia.
Qed.

Lemma shl_align_Q mx ex ex' :
let p := shl_align mx ex ex' in
(snd p <= ex)%Z /\ ((ex' <= ex)%Z -> snd p = ex') /\
inject_Z (Zpos (fst p)) * 2 ^ snd p == inject_Z (Zpos mx) * 2 ^ ex.
Proof.
unfold shl_align. destruct (ex' - ex)%Z as [|d|d] eqn:Hd; cbn [fst snd].
- split; [lia|]. split; [lia|reflexivity].
- split; [lia|]. split; [lia|reflexivity].
- split; [lia|]. split; [lia|].
  rewrite iter_xO_Z, inject_Z_mult, pow2_Z by lia.
  rewrite <- Qmult_assoc, <- pow2_add.
  replace (Zpos d + ex')%Z with ex by lia. reflexivity.
Qed.

(** The product of a draw [u] in [0, 1) and a positive constant below 1/4. *)
Lemma mul_unit_bounds u mc ec :
B64.valid u = true -> B64.leb lit_0 u = true -> B64.ltb u lit_1 = true ->
(ec <= -1)%Z -> inject_Z (Zpos mc) * 2 ^ ec <= 1 # 4 ->
let c := S754_finite false mc ec in
let t := B64.mul u c in
((exists s, t = S754_zero s) \/ (exists mt et, t = S754_finite false mt et)) /\
0 <= B64.to_Q t /\ B64.to_Q t < B64.to_Q c + 2 ^ (-54).
Proof.
intros Hv Hle Hlt Hec Hc c t.
assert (Hcpos : 0 < B64.to_Q c).
{ unfold c. cbn [B64.to_Q]. apply Qmult_lt_0_compat; [reflexivity|apply pow2_pos]. }
destruct (unit_interval_cases u Hv Hle Hlt) as [[s ->]|(m & e & -> & He & Hu)].
- subst t. unfold B64.mul, SFmul, c. cbn [xorb B64.to_Q]. split; [eauto|].
  pose proof (pow2_pos (-54)) as Hk. set (k := 2 ^ (-54)) in *.
  unfold c in Hcpos. cbn [B64.to_Q] in Hcpos. split; lra.
- subst t. unfold B64.mul, SFmul, c, B64.prec, B64.emax. cbn [xorb].
  assert (HV : inject_Z (Zpos (m * mc)) * 2 ^ (e + ec)
               == (inject_Z (Zpos m) * 2 ^ e) * (inject_Z (Zpos mc) * 2 ^ ec)).
  { rewrite Pos2Z.inj_mul, inject_Z_mult, pow2_add. ring. }
  assert (Hupos : 0 < inject_Z (Zpos m) * 2 ^ e).
  { apply Qmult_lt_0_compat; [reflexivity|apply pow2_pos]. }
  unfold c in Hcpos. cbn [B64.to_Q] in Hcpos.
  set (U := inject_Z (Zpos m) * 2 ^ e) in *.
  set (C := inject_Z (Zpos mc) * 2 ^ ec) in *.
  assert (HUC : U * C < C) by nra.
  destruct (binary_round_aux_Q (m * mc) (e + ec) (-2) (-54)) as (Hshape & Hlo & Hhi);
    [rewrite HV; change (2 ^ (-2)) with (1 # 4); lra|lia|lia|lia|].
  split.
  { destruct Hshape as [Hz|Hf]; [left; eauto|right; exact Hf]. }
  rewrite HV in Hlo, Hhi. cbn [B64.to_Q]. fold C.
  set (k := 2 ^ (-54)) in *. split.
  + destruct Hshape as [->|(m3 & e3 & ->)]; cbn [B64.to_Q]; [lra|].
    apply Qlt_le_weak, Qmult_lt_0_compat; [reflexivity|apply pow2_pos].
  + lra.
Qed.

Lemma pow2_m52_small : 2 ^ (-52) <= 1 # 1000000.
Proof. apply Qle_bool_imp_le. vm_compute. reflexivity. Qed.

Lemma pow2_m54_small : 2 ^ (-54) <= 1 # 1000000.
Proof. apply Qle_bool_imp_le. vm_compute. reflexivity. Qed.

(** The sum of a constant in [1/2, 1) and a small non-negative float. *)
Lemma add_bounds m0 t :
1 # 2 <= inject_Z (Zpos m0) * 2 ^ (-53) ->
((exists s, t = S754_zero s) \/ (exists mt et, t = S754_finite false mt et)) ->
inject_Z (Zpos m0) * 2 ^ (-53) + B64.to_Q t < 1 ->
let r := B64.add (S754_finite false m0 (-53)) t in
exists mr er, r = S754_finite false mr er /\
  inject_Z (Zpos m0) * 2 ^ (-53) + B64.to_Q t - 2 * 2 ^ (-52)
    < inject_Z (Zpos mr) * 2 ^ er /\
  inject_Z (Zpos mr) * 2 ^ er
    <= inject_Z (Zpos m0) * 2 ^ (-53) + B64.to_Q t + 2 ^ (-52).
Proof.
intros Hc0 Ht HS r. pose proof pow2_m52_small as Hk. pose proof (pow2_pos (-52)) as Hk0.
destruct Ht as [[s ->]|(mt & et & ->)].
- exists m0, (-53)%Z. subst r. cbn [B64.to_Q].
  set (k := 2 ^ (-52)) in *. set (C := inject_Z (Zpos m0) * 2 ^ (-53)) in *.
  split; [reflexivity|]. split; lra.
- subst r. unfold B64.add, SFadd, B64.prec, B64.emax. cbn [B64.to_Q] in *.
  set (ez := Z.min (-53) et).
  destruct (shl_align_Q m0 (-53) ez) as (_ & Ha1 & Ha2).
  destruct (shl_align_Q mt et ez) as (_ & Hb1 & Hb2).
  rewrite Ha1 in Ha2 by (unfold ez; lia). rewrite Hb1 in Hb2 by (unfold ez; lia).
  set (a := fst (shl_align m0 (-53) ez)) in *.
  set (b := fst (shl_align mt et ez)) in *.
  cbn [cond_Zopp Z.add binary_normalize]. unfold binary_round.
  destruct (shl_align_Q (a + b) ez (fexp 53 1024 (Zpos (digits2_pos (a + b)) + ez)))
    as (Hz1 & _ & Hz2).
  destruct (shl_align (a + b) ez (fexp 53 1024 (Zpos (digits2_pos (a + b)) + ez)))
    as [mz ez'].
  cbn [fst snd] in Hz1, Hz2.
  assert (HV : inject_Z (Zpos mz) * 2 ^ ez'
               == inject_Z (Zpos m0) * 2 ^ (-53) + inject_Z (Zpos mt) * 2 ^ et).
  { rewrite Hz2, Pos2Z.inj_add, inject_Z_plus, <- Ha2, <- Hb2. ring. }
  assert (Htpos : 0 < inject_Z (Zpos mt) * 2 ^ et).
  { apply Qmult_lt_0_compat; [reflexivity|apply pow2_pos]. }
  destruct (binary_round_aux_Q mz ez' 0 (-52)) as (Hshape & Hlo & Hhi);
    [rewrite HV; change (2 ^ 0) with 1; assumption|unfold ez in *; lia|lia|lia|].
  rewrite HV in Hlo, Hhi.
  set (k := 2 ^ (-52)) in *. set (C := inject_Z (Zpos m0) * 2 ^ (-53)) in *.
  set (T := inject_Z (Zpos mt) * 2 ^ et) in *.
  destruct Hshape as [Hz|(m3 & e3 & Hf)].
  + exfalso. rewrite Hz in Hlo. cbn [B64.to_Q] in Hlo. lra.
  + exists m3, e3. rewrite Hf in Hlo, Hhi. cbn [B64.to_Q] in Hlo, Hhi.
    split; [assumption|]. split; assumption.
Qed.

Lemma round_half_even_spec q :
inject_Z (Py.round_half_even q) - (1 # 2) <= q /\
q <= inject_Z (Py.round_half_even q) + (1 # 2).
Proof.
unfold Py.round_half_even.
pose proof (Qfloor_le q) as Hlo. pose proof (Qlt_floor q) as Hhi.
rewrite inject_Z_plus in Hhi. change (inject_Z 1) with 1 in Hhi.
set (f := Qfloor q) in *.
destruct (Qcompare_spec (q - inject_Z f) (1 # 2)) as [Heq|Hlt|Hgt].
- destruct (Z.even f); rewrite ?inject_Z_plus; change (inject_Z 1) with 1; lra.
- lra.
- rewrite inject_Z_plus. change (inject_Z 1) with 1. lra.
Qed.

(** Rounding a positive float to three decimals. *)
Lemma round_float_range m e (lo hi : Z) :
inject_Z lo - (1 # 2) < inject_Z (Zpos m) * 2 ^ e * 1000 ->
inject_Z (Zpos m) * 2 ^ e * 1000 < inject_Z hi + (1 # 2) ->
exists k, (lo <= k <= hi)%Z /\
  Py.round_float (S754_finite false m e) 3 = B64.of_ratio false k 1000.
Proof.
intros Hlo Hhi. unfold Py.round_float.
change (Z.to_pos (10 ^ Z.of_nat 3)) with 1000%positive. cbv zeta.
set (q := Qabs (B64.to_Q (S754_finite false m e)) * inject_Z 1000).
assert (Hq : q == inject_Z (Zpos m) * 2 ^ e * 1000).
{ unfold q. cbn [B64.to_Q]. rewrite Qabs_pos; [reflexivity|].
  apply Qlt_le_weak, Qmult_lt_0_compat; [reflexivity|apply pow2_pos]. }
destruct (round_half_even_spec q) as [H1 H2].
exists (Py.round_half_even q). split; [|reflexivity].
set (k := Py.round_half_even q) in *. clearbody k. clearbody q.
set (V := inject_Z (Zpos m) * 2 ^ e * 1000) in *.
split.
- assert (inject_Z (lo - 1) < inject_Z k) as Hk.
  { unfold Z.sub. rewrite inject_Z_plus, inject_Z_opp. change (inject_Z 1) with 1. lra. }
  rewrite <- Zlt_Qlt in Hk. lia.
- assert (inject_Z k < inject_Z (hi + 1)) as Hk.
  { rewrite inject_Z_plus. change (inject_Z 1) with 1. lra. }
  rewrite <- Zlt_Qlt in Hk. lia.
Qed.

Lemma all_from_spec f n : forall lo k,
all_from f lo n = true -> (lo <= k < lo + Z.of_nat n)%Z -> f k = true.
Proof.
induction n as [|n IH]; intros lo k Hall Hk; [lia|].
cbn [all_from] in Hall. apply andb_prop in Hall as [Hlo Hrest].
destruct (Z.eq_dec k lo) as [->|Hne]; [assumption|].
apply (IH (lo + 1)%Z); [assumption|lia].
Qed.

Lemma thousandths_0_10 :
all_from (fun k => within lit_0 lit_10 (thousandth k)) 0 (Z.to_nat 10001) = true.
Proof. vm_compute. reflexivity. Qed.

Lemma thousandths_075_095 :
all_from (fun k => within lit_0_75 lit_0_95 (thousandth k)) 750 201 = true.
Proof. vm_compute. reflexivity. Qed.

Lemma thousandths_07_095 :
all_from (fun k => within lit_0_7 lit_0_95 (thousandth k)) 700 251 = true.
Proof. vm_compute. reflexivity. Qed.

Lemma thousandths_08_095 :
all_from (fun k => within lit_0_8 lit_0_95 (thousandth k)) 800 151 = true.
Proof. vm_compute. reflexivity. Qed.

(** [c0 + u * c] rounded to three decimals, for a draw [u] in [0, 1). *)
Lemma affine_draw_round m0 mc ec (lo hi : Z) u :
B64.valid u = true -> B64.leb lit_0 u = true -> B64.ltb u lit_1 = true ->
let C0 := inject_Z (Zpos m0) * 2 ^ (-53) in
let C := inject_Z (Zpos mc) * 2 ^ ec in
(ec <= -1)%Z -> C <= 1 # 4 -> 1 # 2 <= C0 -> C0 + C <= 99 # 100 ->
inject_Z lo - (1 # 2) + (1 # 100) <= C0 * 1000 ->
(C0 + C) * 1000 + (1 # 100) <= inject_Z hi + (1 # 2) ->
exists k, (lo <= k <= hi)%Z /\
  Py.round_float
    (B64.add (S754_finite false m0 (-53)) (B64.mul u (S754_finite false mc ec))) 3
  = thousandth k.
Proof.
intros Hv Hle Hlt C0 C Hec HC HC0 Hsum Hlo Hhi.
destruct (mul_unit_bounds u mc ec Hv Hle Hlt Hec HC) as (Hshape & Ht0 & Ht1).
cbn [B64.to_Q] in Ht1. fold C in Ht1.
set (t := B64.mul u (S754_finite false mc ec)) in *.
pose proof pow2_m52_small as Hk52. pose proof pow2_m54_small as Hk54.
pose proof (pow2_pos (-52)) as Hp52.
destruct (add_bounds m0 t HC0 Hshape) as (mr & er & Hr & Hrlo & Hrhi).
{ fold C0. set (k54 := 2 ^ (-54)) in *. lra. }
rewrite Hr. fold C0 in Hrlo, Hrhi.
unfold thousandth. apply round_float_range.
- set (k54 := 2 ^ (-54)) in *. set (k52 := 2 ^ (-52)) in *.
  set (R := inject_Z (Zpos mr) * 2 ^ er) in *. lra.
- set (k54 := 2 ^ (-54)) in *. set (k52 := 2 ^ (-52)) in *.
  set (R := inject_Z (Zpos mr) * 2 ^ er) in *. lra.
Qed.

Lemma within_thousandth a b lo n k :
all_from (fun k => within a b (thousandth k)) lo n = true ->
(lo <= k < lo + Z.of_nat n)%Z ->
B64.leb a (thousandth k) = true /\ B64.leb (thousandth k) b = true.
Proof.
intros Hall Hk. apply andb_prop.
exact (all_from_spec (fun k => within a b (thousandth k)) n lo k Hall Hk).
Qed.

Lemma risk_confidence_range u :
B64.valid u = true -> B64.leb lit_0 u = true -> B64.ltb u lit_1 = true ->
let c := Py.round_float (B64.add lit_0_75 (B64.mul u lit_0_2)) 3 in
B64.leb lit_0_75 c = true /\ B64.leb c lit_0_95 = true.
Proof.
intros Hv Hle Hlt c.
destruct (affine_draw_round 6755399441055744 7205759403792794 (-55) 750 950 u Hv Hle Hlt)
  as (k & Hk & Hc); try qle_compute; [lia|].
change (c = thousandth k) in Hc. rewrite Hc.
apply (within_thousandth _ _ 750 201); [exact thousandths_075_095|lia].
Qed.

Lemma quality_prediction_range u :
B64.valid u = true -> B64.leb lit_0 u = true -> B64.ltb u lit_1 = true ->
let p := Py.round_float (B64.add lit_0_7 (B64.mul u lit_0_25)) 3 in
B64.leb lit_0_7 p = true /\ B64.leb p lit_0_95 = true.
Proof.
intros Hv Hle Hlt p.
destruct (affine_draw_round 6305039478318694 4503599627370496 (-54) 700 950 u Hv Hle Hlt)
  as (k & Hk & Hp); try qle_compute; [lia|].
change (p = thousandth k) in Hp. rewrite Hp.
apply (within_thousandth _ _ 700 251); [exact thousandths_07_095|lia].
Qed.

Lemma quality_confidence_range u :
B64.valid u = true -> B64.leb lit_0 u = true -> B64.ltb u lit_1 = true ->
let c := Py.round_float (B64.add lit_0_8 (B64.mul u lit_0_15)) 3 in
B64.leb lit_0_8 c = true /\ B64.leb c lit_0_95 = true.
Proof.
intros Hv Hle Hlt c.
destruct (affine_draw_round 7205759403792794 5404319552844595 (-55) 800 950 u Hv Hle Hlt)
  as (k & Hk & Hc); try qle_compute; [lia|].
change (c = thousandth k) in Hc. rewrite Hc.
apply (within_thousandth _ _ 800 151); [exact thousandths_08_095|lia].
Qed.

Lemma of_Z_0 : B64.of_Z 0 = lit_0.
Proof. vm_compute. reflexivity. Qed.

Lemma of_Z_10 : B64.of_Z 10 = lit_10.
Proof. vm_compute. reflexivity. Qed.

(** A double strictly between the integers 0 and 10. *)
Lemma between_0_10 x :
B64.valid x = true -> B64.ltb lit_0 x = true -> B64.ltb x lit_10 = true ->
exists m e, x = S754_finite false m e /\ inject_Z (Zpos m) * 2 ^ e < 10.
Proof.
intros Hv H0 H10. destruct x as [s|[|]| |[|] m e]; try discriminate.
exists m, e. split; [reflexivity|].
destruct (valid_finite _ _ _ Hv) as (Hm & He & _).
apply ltb_finite_pos in H10.
pose proof (pow2_pos e) as Hpe.
destruct H10 as [Hlt|[-> Hlt]].
- apply Qle_lt_trans with (inject_Z (Zpos m) * 2 ^ (-50)).
  + apply Qmult_le_l; [reflexivity|]. apply pow2_le. lia.
  + rewrite Zlt_Qlt in Hm.
    assert (H8 : inject_Z 9007199254740992 * 2 ^ (-50) == 8) by (vm_compute; reflexivity).
    apply Qlt_trans with 8; [|reflexivity].
    rewrite <- H8. apply Qmult_lt_compat_r; [apply pow2_pos|assumption].
- rewrite Zlt_Qlt in Hlt.
  assert (H10 : inject_Z 5629499534213120 * 2 ^ (-49) == 10) by (vm_compute; reflexivity).
  rewrite <- H10. apply Qmult_lt_compat_r; [apply pow2_pos|assumption].
Qed.

Lemma risk_prediction_range x :
B64.valid x = true ->
let p := Py.to_float (Py.round (clamp x) 3) in
B64.leb lit_0 p = true /\ B64.leb p lit_10 = true.
Proof.
intros Hv p. subst p. unfold clamp, Py.max, Py.min, Py.gt, Py.lt.
cbn [Py.to_float]. rewrite of_Z_10.
destruct (B64.ltb x lit_10) eqn:H10; cbn [Py.to_float]; rewrite ?of_Z_0, ?of_Z_10.
- destruct (B64.ltb lit_0 x) eqn:H0; cbn [Py.round Py.to_float].
  + destruct (between_0_10 x Hv H0 H10) as (m & e & -> & Hlt).
    assert (Hpos : 0 < inject_Z (Zpos m) * 2 ^ e).
    { apply Qmult_lt_0_compat; [reflexivity|apply pow2_pos]. }
    destruct (round_float_range m e 0 10000) as (k & Hk & ->).
    * set (V := inject_Z (Zpos m) * 2 ^ e) in *. change (inject_Z 0) with 0. lra.
    * set (V := inject_Z (Zpos m) * 2 ^ e) in *. change (inject_Z 10000) with 10000. lra.
    * apply (within_thousandth _ _ 0%Z (Z.to_nat 10001)); [exact thousandths_0_10|lia].
  + rewrite of_Z_0. split; reflexivity.
- change (B64.ltb lit_0 lit_10) with true. cbn [Py.round Py.to_float].
  rewrite of_Z_10. split; reflexivity.
Qed.

End ExactValues.

(** ** Running the model

    The values below are those CPython prints for the same expressions. *)

Example round_tie_goes_to_even :
  Py.round_float (B64.dec 8125 4) 3 = B64.dec 812 3.
Proof. vm_compute. reflexivity. Qed.

Example round_0_0015_goes_up :
  Py.round_float (B64.dec 15 4) 3 = B64.dec 2 3.
Proof. vm_compute. reflexivity. Qed.

Example round_keeps_negative_zero :
  Py.round_float (B64.of_ratio true 1 10000) 3 = S754_zero true.
Proof. vm_compute. reflexivity. Qed.

Example risk_confidence_before_rounding :
  B64.add lit_0_75 (B64.mul sample_uniform lit_0_2) = B64.dec 9498046875 10.
Proof. vm_compute. reflexivity. Qed.

Example quality_confidence_before_rounding :
  B64.add lit_0_8 (B64.mul sample_uniform lit_0_15) = B64.dec 9498535156250001 16.
Proof. vm_compute. reflexivity. Qed.

Example clamp_above_10 : clamp lit_12_5 = Py.Int 10.
Proof. vm_compute. reflexivity. Qed.

Example clamp_nan : clamp S754_nan = Py.Int 10.
Proof. vm_compute. reflexivity. Qed.

Example unknown_type_is_404 :
  fst (predict sample_unknown_request (startup 0%nat))
  = Raise {| status_code := 404;
             detail := "Model type 'anomaly_detection' not found" |}.
Proof. vm_compute. reflexivity. Qed.

(** ** The scripted host honours numpy's contract *)

Lemma scripted_contract : numpy_contract (E := nat).
Proof.
  split.
  - intros loc scale n. cbn [np_random_normal ScriptedHost fst].
    destruct (Nat.even n); vm_compute; reflexivity.
  - intros n. cbn [np_random_random ScriptedHost fst].
    destruct (Nat.eqb (Nat.modulo n 5) 4); vm_compute; auto.
Qed.

(** ** Properties of the service *)

Section Claims.

Context {E : Type} `{Host E}.

Lemma predict_found fallback rq (w : World E) m :
  find_model (registry w) (model_type rq) = Some m ->
  model_type rq = "risk_prediction" \/ model_type rq = "data_quality" ->
  exists pc e, predict_with fallback rq w = respond m pc (with_host w e) /\
               scores_with fallback (model_type rq) w = (Ok pc, with_host w e).
Proof.
  intros Hfind Hty. rewrite predict_with_eq, Hfind.
  destruct (builtin_scores fallback (model_type rq) w Hty) as (pc & e & Hs).
  rewrite Hs. eauto.
Qed.

(** C1: on every reachable state, a request whose [model_type] is the
    type of a registry record gets a response whose [model_version] is
    that record's [version], which is "1.0.0-local"; a request whose type
    no record has raises before anything is drawn or built, leaving the
    state as it was. *)
Theorem model_version_is_record_version (w : World E) rq :
  reachable w ->
  (forall m, In m MOCK_MODELS -> mr_type m = model_type rq ->
     exists resp w', predict rq w = (Ok resp, w') /\
       model_version resp = mr_version m /\
       model_version resp = "1.0.0-local") /\
  ((forall m, In m MOCK_MODELS -> mr_type m <> model_type rq) ->
     predict rq w = (Raise (not_found (model_type rq)), w)).
Proof.
  intros Hreach. pose proof (reachable_registry w Hreach) as Hreg. split.
  - intros m Hin Hty.
    destruct (find_model (registry w) (model_type rq)) as [m'|] eqn:Hfind.
    + rewrite Hreg in Hfind.
      destruct (find_MOCK_MODELS _ _ Hfind) as (Hknown & Hty' & Hver).
      rewrite <- Hreg in Hfind.
      destruct (predict_found generic_branch rq w m' Hfind Hknown) as (pc & e & Hp & _).
      unfold predict. rewrite Hp. unfold respond. do 2 eexists.
      split; [reflexivity|]. cbn [model_version].
      assert (Hm : mr_version m = "1.0.0-local").
      { cbn in Hin. destruct Hin as [<-|[<-|[]]]; reflexivity. }
      rewrite Hm, Hver. auto.
    + exfalso. rewrite Hreg in Hfind.
      exact (proj1 (find_model_none _ _) Hfind m Hin Hty).
  - intros Hnone. unfold predict. rewrite predict_with_eq.
    rewrite <- Hreg in Hnone.
    rewrite (proj2 (find_model_none _ _) Hnone). reflexivity.
Qed.

(** C2: [predict] answers with the version of the first registry record
    (in list order) whose type is the requested one; it raises if and
    only if no record has that type, and what it raises is a 404 whose
    detail names the requested type. *)
Theorem predict_first_match_or_404 (w : World E) rq :
  (forall l1 m l2,
     registry w = (l1 ++ m :: l2)%list ->
     mr_type m = model_type rq ->
     (forall m', In m' l1 -> mr_type m' <> model_type rq) ->
     exists resp w', predict rq w = (Ok resp, w') /\
                     model_version resp = mr_version m) /\
  ((exists exn w', predict rq w = (Raise exn, w')) <->
   (forall m, In m (registry w) -> mr_type m <> model_type rq)) /\
  (forall exn w', predict rq w = (Raise exn, w') ->
     status_code exn = 404 /\
     detail exn = "Model type '" ++ model_type rq ++ "' not found" /\
     w' = w).
Proof.
  split; [|split].
  - intros l1 m l2 Hreg Hty Hfirst.
    assert (Hfind : find_model (registry w) (model_type rq) = Some m).
    { apply find_model_first. exists l1, l2. auto. }
    unfold predict. rewrite predict_with_eq, Hfind.
    destruct (scores_total (model_type rq) w) as (pc & e & Hs).
    unfold scores in Hs. rewrite Hs. unfold respond. do 2 eexists.
    split; reflexivity.
  - rewrite <- find_model_none. unfold predict. rewrite predict_with_eq.
    destruct (find_model (registry w) (model_type rq)) as [m|].
    + destruct (scores_total (model_type rq) w) as (pc & e & Hs).
      unfold scores in Hs. rewrite Hs. unfold respond.
      split; [intros (exn & w' & Habs); discriminate|discriminate].
    + split; eauto.
  - intros exn w'. unfold predict. rewrite predict_with_eq.
    destruct (find_model (registry w) (model_type rq)) as [m|].
    + destruct (scores_total (model_type rq) w) as (pc & e & Hs).
      unfold scores in Hs. rewrite Hs. unfold respond. discriminate.
    + intros [= <- <-]. cbn. auto.
Qed.

(** C5: on every reachable state, a request that passes the lookup has
    type "risk_prediction" or "data_quality", so the else branch is never
    run: replacing its body by any other computation leaves [predict]
    unchanged. *)
Theorem fallback_branch_unreachable (w : World E) rq :
  reachable w ->
  (forall m, find_model (registry w) (model_type rq) = Some m ->
     model_type rq = "risk_prediction" \/ model_type rq = "data_quality") /\
  (forall fallback, predict_with fallback rq w = predict rq w).
Proof.
  intros Hreach. pose proof (reachable_registry w Hreach) as Hreg.
  assert (Hknown : forall m, find_model (registry w) (model_type rq) = Some m ->
            model_type rq = "risk_prediction" \/ model_type rq = "data_quality").
  { intros m Hfind. rewrite Hreg in Hfind.
    destruct (find_MOCK_MODELS _ _ Hfind) as (Hk & _). exact Hk. }
  split; [exact Hknown|].
  intros fallback. unfold predict. rewrite !predict_with_eq.
  destruct (find_model (registry w) (model_type rq)) as [m|] eqn:Hfind; [|reflexivity].
  destruct (Hknown m eq_refl) as [Hty|Hty]; rewrite Hty; reflexivity.
Qed.

(** C6: on every reachable state, [get_models] returns the two static
    records, risk_prediction first and data_quality second, with the
    field values of the registry, and leaves the state as it was; so
    any two calls return the same payload. *)
Theorem get_models_returns_static_records (w : World E) :
  reachable w ->
  get_models w =
    (Ok [ {| id := "risk-predictor-local";
             name := "Risk Prediction Model (Local)";
             type := "risk_prediction";
             mi_status := "active";
             accuracy := lit_0_847;
             version := "1.0.0-local" |};
          {| id := "data-quality-local";
             name := "Data Quality Checker (Local)";
             type := "data_quality";
             mi_status := "active";
             accuracy := lit_0_923;
             version := "1.0.0-local" |} ], w) /\
  (forall w', reachable w' -> fst (get_models w') = fst (get_models w)).
Proof.
  intros Hreach. split.
  - rewrite get_models_eq, (reachable_registry w Hreach). reflexivity.
  - intros w' Hreach'.
    rewrite !get_models_eq, (reachable_registry w Hreach),
      (reachable_registry w' Hreach'). reflexivity.
Qed.

(** C7: on every reachable state, [health_check] returns a response
    whose status is "healthy" and whose models_loaded is 2. *)
Theorem health_check_reports_two_models (w : World E) :
  reachable w ->
  exists r w', health_check w = (Ok r, w') /\
               status r = "healthy" /\ models_loaded r = 2.
Proof.
  intros Hreach. rewrite health_check_eq, (reachable_registry w Hreach).
  do 2 eexists. split; [reflexivity|]. split; reflexivity.
Qed.

Lemma round_float_nearest s m e :
  exists k : Z,
    Py.round_float (S754_finite s m e) 3 = B64.of_ratio s k 1000 /\
    (Qabs (inject_Z k - Qabs (B64.to_Q (S754_finite s m e)) * 1000) <= 1 # 2)%Q.
Proof.
  unfold Py.round_float.
  change (Z.to_pos (10 ^ Z.of_nat 3)) with 1000%positive. cbv zeta.
  set (q := (Qabs (B64.to_Q (S754_finite s m e)) * inject_Z 1000)%Q).
  exists (Py.round_half_even q). split; [reflexivity|].
  destruct (round_half_even_spec q) as [H1 H2].
  change (Qabs (B64.to_Q (S754_finite s m e)) * 1000)%Q with q.
  apply Qabs_Qle_condition. split; lra.
Qed.

Lemma round_rounds_to_3 v : rounds_to_3 v (Py.to_float (Py.round v 3)).
Proof.
  destruct v as [z|[s|s| |s m e]]; cbn [rounds_to_3 Py.round Py.to_float];
    try reflexivity.
  destruct (round_float_nearest s m e) as (k & Hk & Hq). eauto.
Qed.

(** C8: in every successful response, [prediction] and [confidence] are
    the two scores the branch computed, each rounded to three decimal
    places. *)
Theorem response_scores_rounded_to_3 (w : World E) rq resp w' :
  predict rq w = (Ok resp, w') ->
  exists p c w1,
    scores (model_type rq) w = (Ok (p, c), w1) /\
    prediction resp = Py.to_float (Py.round p 3) /\
    confidence resp = Py.to_float (Py.round c 3) /\
    rounds_to_3 p (prediction resp) /\
    rounds_to_3 c (confidence resp).
Proof.
  unfold predict. rewrite predict_with_eq.
  destruct (find_model (registry w) (model_type rq)) as [m|]; [|discriminate].
  destruct (scores_total (model_type rq) w) as ([p c] & e & Hs).
  fold (scores (model_type rq)). rewrite Hs. unfold respond.
  intros [= <- _]. exists p, c, (with_host w e).
  cbn [prediction confidence fst snd].
  repeat split; auto using round_rounds_to_3.
Qed.

(** C9: no handler changes the registry: after [health_check],
    [get_models], [predict], [root], and so after any request, the
    registry is the list it was before. *)
Theorem handlers_preserve_registry (w : World E) :
  registry (snd (health_check w)) = registry w /\
  registry (snd (get_models w)) = registry w /\
  (forall body, registry (snd (predict body w)) = registry w) /\
  registry (snd (root w)) = registry w /\
  (forall rq, registry (snd (serve rq w)) = registry w).
Proof.
  repeat split.
  - rewrite health_check_eq. reflexivity.
  - intros body. apply predict_registry.
  - intros rq. apply serve_registry.
Qed.

(** C10: two requests with the same [model_type], served from the same
    state (hence with the same draws), get the same result, whatever
    their [tenant_id] and [data]. *)
Theorem predict_ignores_tenant_and_data (w : World E) rq1 rq2 :
  model_type rq1 = model_type rq2 ->
  predict rq1 w = predict rq2 w /\
  (forall r1 r2 w1 w2,
     predict rq1 w = (Ok r1, w1) -> predict rq2 w = (Ok r2, w2) ->
     prediction r1 = prediction r2 /\ confidence r1 = confidence r2 /\
     model_version r1 = model_version r2).
Proof.
  intros Hty.
  assert (Heq : predict rq1 w = predict rq2 w).
  { unfold predict. rewrite !predict_with_eq, Hty. reflexivity. }
  split; [exact Heq|].
  intros r1 r2 w1 w2 H1 H2. rewrite Heq, H2 in H1.
  injection H1 as <- _. auto.
Qed.

(** C3, amended: under numpy's contract, on every reachable state, a
    request of type "risk_prediction" gets a response with
    0 <= prediction <= 10 and 0.75 <= confidence <= 0.95. *)
Theorem risk_prediction_response_bounds (w : World E) rq :
  numpy_contract -> reachable w ->
  model_type rq = "risk_prediction" ->
  exists resp w', predict rq w = (Ok resp, w') /\
    B64.leb lit_0 (prediction resp) = true /\
    B64.leb (prediction resp) lit_10 = true /\
    B64.leb lit_0_75 (confidence resp) = true /\
    B64.leb (confidence resp) lit_0_95 = true.
Proof.
  intros [Hnormal Hrandom] Hreach Hty.
  unfold predict. rewrite predict_with_eq, (reachable_registry w Hreach), Hty.
  change (scores_with generic_branch "risk_prediction" w) with (risk_branch w).
  cbn [find_model find MOCK_MODELS mr_type String.eqb Ascii.eqb Bool.eqb].
  rewrite risk_branch_eq. cbv zeta. unfold respond. do 2 eexists.
  split; [reflexivity|]. cbn [prediction confidence fst snd Py.round Py.to_float].
  set (d1 := np_random_normal lit_6_5 lit_1_5 (host w)).
  pose proof (Hnormal lit_6_5 lit_1_5 (host w)) as Hv. fold d1 in Hv.
  destruct (Hrandom (snd d1)) as (Hu & Hu0 & Hu1).
  destruct (risk_prediction_range (fst d1) Hv) as [Hp0 Hp10].
  destruct (risk_confidence_range _ Hu Hu0 Hu1) as [Hc0 Hc1].
  auto.
Qed.

(** C4, amended: under numpy's contract, on every reachable state, a
    request of type "data_quality" gets a response with
    0.7 <= prediction <= 0.95 and 0.8 <= confidence <= 0.95. *)
Theorem data_quality_response_bounds (w : World E) rq :
  numpy_contract -> reachable w ->
  model_type rq = "data_quality" ->
  exists resp w', predict rq w = (Ok resp, w') /\
    B64.leb lit_0_7 (prediction resp) = true /\
    B64.leb (prediction resp) lit_0_95 = true /\
    B64.leb lit_0_8 (confidence resp) = true /\
    B64.leb (confidence resp) lit_0_95 = true.
Proof.
  intros [Hnormal Hrandom] Hreach Hty.
  unfold predict. rewrite predict_with_eq, (reachable_registry w Hreach), Hty.
  change (scores_with generic_branch "data_quality" w) with (quality_branch w).
  cbn [find_model find MOCK_MODELS mr_type String.eqb Ascii.eqb Bool.eqb].
  rewrite quality_branch_eq. cbv zeta. unfold respond. do 2 eexists.
  split; [reflexivity|]. cbn [prediction confidence fst snd Py.round Py.to_float].
  destruct (Hrandom (host w)) as (Hu & Hu0 & Hu1).
  destruct (Hrandom (snd (np_random_random (host w)))) as (Hu' & Hu0' & Hu1').
  destruct (quality_prediction_range _ Hu Hu0 Hu1) as [Hp0 Hp1].
  destruct (quality_confidence_range _ Hu' Hu0' Hu1') as [Hc0 Hc1].
  auto.
Qed.

End Claims.
(** ** The properties at concrete inputs *)

Lemma model_version_is_record_version_witness :
  reachable (startup 0%nat) /\
  exists resp w',
    predict sample_quality_request (startup 0%nat) = (Ok resp, w') /\
    model_version resp = "1.0.0-local".
Proof.
  split; [apply reach_startup|].
  destruct (model_version_is_record_version (startup 0%nat) sample_quality_request
              (reach_startup 0%nat)) as [Hfound _].
  destruct (Hfound _ (or_intror (or_introl eq_refl)) eq_refl)
    as (resp & w' & Hp & _ & Hv).
  exists resp, w'. split; assumption.
Defined.

Lemma predict_first_match_or_404_witness :
  exists resp w',
    predict sample_risk_request (startup 0%nat) = (Ok resp, w') /\
    model_version resp = "1.0.0-local".
Proof.
  destruct (predict_first_match_or_404 (startup 0%nat) sample_risk_request)
    as [Hfirst _].
  refine (Hfirst [] _ _ eq_refl eq_refl _).
  intros m' [].
Defined.

Lemma fallback_branch_unreachable_witness :
  reachable (startup 0%nat) /\
  predict_with risk_branch sample_quality_request (startup 0%nat)
  = predict sample_quality_request (startup 0%nat).
Proof.
  split; [apply reach_startup|].
  destruct (fallback_branch_unreachable (startup 0%nat) sample_quality_request
              (reach_startup 0%nat)) as [_ Hsame].
  apply Hsame.
Defined.

Lemma get_models_returns_static_records_witness :
  reachable (snd (serve GET_health (startup 0%nat))) /\
  fst (get_models (snd (serve GET_health (startup 0%nat))))
  = fst (get_models (startup 5%nat)).
Proof.
  split; [apply reach_serve, reach_startup|].
  destruct (get_models_returns_static_records (startup 5%nat) (reach_startup 5%nat))
    as [_ Hsame].
  apply Hsame. apply reach_serve, reach_startup.
Defined.

Lemma health_check_reports_two_models_witness :
  reachable (snd (serve (POST_predict sample_risk_request) (startup 0%nat))) /\
  exists r w',
    health_check (snd (serve (POST_predict sample_risk_request) (startup 0%nat)))
    = (Ok r, w') /\ status r = "healthy" /\ models_loaded r = 2.
Proof.
  split; [apply reach_serve, reach_startup|].
  apply health_check_reports_two_models. apply reach_serve, reach_startup.
Defined.

Lemma response_scores_rounded_to_3_witness :
  exists resp w',
    predict sample_risk_request (startup 0%nat) = (Ok resp, w') /\
    exists p c w1,
      scores (model_type sample_risk_request) (startup 0%nat) = (Ok (p, c), w1) /\
      prediction resp = Py.to_float (Py.round p 3) /\
      confidence resp = Py.to_float (Py.round c 3) /\
      rounds_to_3 p (prediction resp) /\
      rounds_to_3 c (confidence resp).
Proof.
  destruct (predict sample_risk_request (startup 0%nat)) as [[resp|exn] w'] eqn:Hp.
  - exists resp, w'. split; [reflexivity|].
    exact (response_scores_rounded_to_3 (startup 0%nat) sample_risk_request resp w' Hp).
  - vm_compute in Hp. discriminate Hp.
Defined.

Lemma predict_ignores_tenant_and_data_witness :
  model_type sample_quality_request = model_type sample_other_request /\
  predict sample_quality_request (startup 0%nat)
  = predict sample_other_request (startup 0%nat).
Proof.
  split; [reflexivity|].
  apply (predict_ignores_tenant_and_data (startup 0%nat)
           sample_quality_request sample_other_request eq_refl).
Defined.

Lemma risk_prediction_response_bounds_witness :
  numpy_contract (E := nat) /\ reachable (startup 0%nat) /\
  model_type sample_risk_request = "risk_prediction" /\
  exists resp w',
    predict sample_risk_request (startup 0%nat) = (Ok resp, w') /\
    B64.leb lit_0 (prediction resp) = true /\
    B64.leb (prediction resp) lit_10 = true /\
    B64.leb lit_0_75 (confidence resp) = true /\
    B64.leb (confidence resp) lit_0_95 = true.
Proof.
  split; [exact scripted_contract|]. split; [apply reach_startup|].
  split; [reflexivity|].
  exact (risk_prediction_response_bounds (startup 0%nat) sample_risk_request
           scripted_contract (reach_startup 0%nat) eq_refl).
Defined.

Lemma data_quality_response_bounds_witness :
  numpy_contract (E := nat) /\ reachable (startup 0%nat) /\
  model_type sample_quality_request = "data_quality" /\
  exists resp w',
    predict sample_quality_request (startup 0%nat) = (Ok resp, w') /\
    B64.leb lit_0_7 (prediction resp) = true /\
    B64.leb (prediction resp) lit_0_95 = true /\
    B64.leb lit_0_8 (confidence resp) = true /\
    B64.leb (confidence resp) lit_0_95 = true.
Proof.
  split; [exact scripted_contract|]. split; [apply reach_startup|].
  split; [reflexivity|].
  exact (data_quality_response_bounds (startup 0%nat) sample_quality_request
           scripted_contract (reach_startup 0%nat) eq_refl).
Defined.

(** C3 as stated fails: with the draw u = 1023/1024 the confidence is
    0.75 + u * 0.2 = 0.9498046875, which rounds to 0.95, and 0.95 < 0.95
    does not hold. *)
Lemma risk_confidence_reaches_0_95 :
  numpy_contract (E := nat) /\ reachable (startup 0%nat) /\
  model_type sample_risk_request = "risk_prediction" /\
  exists resp w',
    predict sample_risk_request (startup 0%nat) = (Ok resp, w') /\
    confidence resp = lit_0_95 /\
    B64.ltb (confidence resp) lit_0_95 = false.
Proof.
  split; [exact scripted_contract|]. split; [apply reach_startup|].
  split; [reflexivity|].
  destruct (predict sample_risk_request (startup 0%nat)) as [[resp|exn] w'] eqn:Hp;
    vm_compute in Hp; [|discriminate Hp].
  injection Hp as <- <-. do 2 eexists. split; [reflexivity|].
  split; vm_compute; reflexivity.
Qed.

(** C4 as stated fails: with the draw u = 1023/1024 the prediction is
    0.7 + u * 0.25 = 0.949755859375 and the confidence is
    0.8 + u * 0.15 = 0.9498535156250001; both round to 0.95. *)
Lemma data_quality_scores_reach_0_95 :
  numpy_contract (E := nat) /\ reachable (startup 0%nat) /\
  model_type sample_quality_request = "data_quality" /\
  exists resp w',
    predict sample_quality_request (startup 0%nat) = (Ok resp, w') /\
    prediction resp = lit_0_95 /\
    B64.ltb (prediction resp) lit_0_95 = false /\
    confidence resp = lit_0_95 /\
    B64.ltb (confidence resp) lit_0_95 = false.
Proof.
  split; [exact scripted_contract|]. split; [apply reach_startup|].
  split; [reflexivity|].
  destruct (predict sample_quality_request (startup 0%nat)) as [[resp|exn] w'] eqn:Hp;
    vm_compute in Hp; [|discriminate Hp].
  injection Hp as <- <-. do 2 eexists. split; [reflexivity|].
  repeat split; vm_compute; reflexivity.
Qed.
(** ** Further properties of the handlers *)

Section Discovery.

Context {E : Type} `{Host E}.

Lemma find_model_listed l t m :
  find_model l t = Some m ->
  exists l1 l2,
    List.map ModelInfo_of l = (l1 ++ ModelInfo_of m :: l2)%list /\
    (forall i, In i l1 -> type i <> t).
Proof.
  intros Hfind. apply find_model_first in Hfind.
  destruct Hfind as (r1 & r2 & -> & _ & Hfirst).
  exists (List.map ModelInfo_of r1), (List.map ModelInfo_of r2).
  split; [rewrite map_app; reflexivity|].
  intros i Hin. apply in_map_iff in Hin. destruct Hin as (r & <- & Hr).
  exact (Hfirst r Hr).
Qed.

(** X1: whatever the registry holds, [predict] succeeds exactly for the
    types that [get_models] lists, and the version it answers with is the
    version of the first listed model of the requested type. *)
Theorem predict_succeeds_iff_listed (w : World E) rq infos :
  fst (get_models w) = Ok infos ->
  ((exists resp w', predict rq w = (Ok resp, w')) <->
   (exists i, In i infos /\ type i = model_type rq)) /\
  (forall resp w', predict rq w = (Ok resp, w') ->
     exists l1 i l2,
       infos = (l1 ++ i :: l2)%list /\ type i = model_type rq /\
       (forall i', In i' l1 -> type i' <> model_type rq) /\
       model_version resp = version i).
Proof.
  rewrite get_models_eq. cbn [fst]. intros [= <-].
  unfold predict. rewrite predict_with_eq.
  destruct (find_model (registry w) (model_type rq)) as [m|] eqn:Hfind.
  - destruct (scores_total (model_type rq) w) as (pc & e & Hs).
    unfold scores in Hs. rewrite Hs. unfold respond.
    destruct (find_model_listed _ _ _ Hfind) as (l1 & l2 & Hl & Hfirst).
    pose proof (proj1 (find_model_first _ _ _) Hfind) as (r1 & r2 & _ & Hty & _).
    split.
    + split; [|eauto]. intros _. exists (ModelInfo_of m). split; [|exact Hty].
      rewrite Hl. apply in_or_app. right. left. reflexivity.
    + intros resp w' [= <- _]. exists l1, (ModelInfo_of m), l2.
      repeat split; auto.
  - split.
    + split; [intros (resp & w' & Habs); discriminate|].
      intros (i & Hin & Hty). exfalso.
      apply in_map_iff in Hin. destruct Hin as (r & <- & Hr).
      exact (proj1 (find_model_none _ _) Hfind r Hr Hty).
    + intros resp w' Habs. discriminate.
Qed.

(** X2: whatever the registry holds, [health_check] succeeds and its
    [models_loaded] is the number of models that [get_models] lists. *)
Theorem health_count_matches_models (w : World E) infos :
  fst (get_models w) = Ok infos ->
  exists r w', health_check w = (Ok r, w') /\
               models_loaded r = Z.of_nat (List.length infos).
Proof.
  rewrite get_models_eq, health_check_eq. cbn [fst]. intros [= <-].
  do 2 eexists. split; [reflexivity|]. cbn [models_loaded].
  rewrite length_map. reflexivity.
Qed.


End Discovery.

(** *** Saturation of the risk score *)

Lemma SFcompare_antisym a b :
  SFcompare b a = option_map CompOpp (SFcompare a b).
Proof.
  destruct a as [[|]|[|]| |[|] m1 e1], b as [[|]|[|]| |[|] m2 e2];
    try reflexivity; cbn [SFcompare option_map]; f_equal;
    rewrite (Z.compare_antisym e2 e1); destruct (e2 ?= e1); cbn [CompOpp];
    try reflexivity;
    rewrite (Pos.compare_cont_antisym m1 m2 Eq); reflexivity.
Qed.

Lemma leb_not_ltb a b : B64.leb a b = true -> B64.ltb b a = false.
Proof.
  unfold B64.leb, B64.ltb, SFleb, SFltb. rewrite (SFcompare_antisym a b).
  destruct (SFcompare a b) as [[| |]|]; cbn; congruence.
Qed.

Lemma clamp_saturates x :
  (B64.leb lit_10 x = true \/ x = S754_nan -> clamp x = Py.Int 10) /\
  (B64.leb x lit_0 = true -> clamp x = Py.Int 0).
Proof.
  unfold clamp, Py.max, Py.min, Py.gt, Py.lt. cbn [Py.to_float].
  rewrite of_Z_10, of_Z_0. split.
  - intros Hhi.
    assert (Hlt : B64.ltb x lit_10 = false).
    { destruct Hhi as [Hle| ->]; [apply leb_not_ltb; assumption|reflexivity]. }
    rewrite Hlt. cbn [Py.to_float]. rewrite of_Z_10. reflexivity.
  - intros Hle. pose proof (leb_not_ltb _ _ Hle) as Hnot.
    assert (Hlt : B64.ltb x lit_10 = true).
    { destruct x as [s|[|]| |[|] m e]; try discriminate; reflexivity. }
    rewrite Hlt. cbn [Py.to_float]. rewrite Hnot. reflexivity.
Qed.

Section Saturation.

Context {E : Type} `{Host E}.

(** X4: on every reachable state, a "risk_prediction" request whose normal
    draw is 10 or more, or NaN, gets prediction 10; one whose draw is 0 or
    less gets prediction 0; one whose draw is strictly between gets the draw
    rounded to three decimals. *)
Theorem risk_prediction_saturates (w : World E) rq :
  reachable w -> model_type rq = "risk_prediction" ->
  let x := fst (np_random_normal lit_6_5 lit_1_5 (host w)) in
  exists resp w', predict rq w = (Ok resp, w') /\
    (B64.leb lit_10 x = true \/ x = S754_nan -> prediction resp = lit_10) /\
    (B64.leb x lit_0 = true -> prediction resp = lit_0) /\
    (B64.ltb lit_0 x = true -> B64.ltb x lit_10 = true ->
       prediction resp = Py.round_float x 3).
Proof.
  intros Hreach Hty x.
  unfold predict. rewrite predict_with_eq, (reachable_registry w Hreach), Hty.
  change (scores_with generic_branch "risk_prediction" w) with (risk_branch w).
  cbn [find_model find MOCK_MODELS mr_type String.eqb Ascii.eqb Bool.eqb].
  rewrite risk_branch_eq. cbv zeta. fold x. unfold respond. do 2 eexists.
  split; [reflexivity|]. cbn [prediction fst].
  destruct (clamp_saturates x) as [Hhi Hlo]. repeat split.
  - intros Hx. rewrite (Hhi Hx). cbn [Py.round Py.to_float]. apply of_Z_10.
  - intros Hx. rewrite (Hlo Hx). cbn [Py.round Py.to_float]. apply of_Z_0.
  - intros H0 H10. unfold clamp, Py.max, Py.min, Py.gt, Py.lt.
    cbn [Py.to_float]. rewrite of_Z_10, H10. cbn [Py.to_float].
    rewrite of_Z_0, H0. reflexivity.
Qed.

End Saturation.

Lemma risk_prediction_saturates_witness :
  reachable (startup 1%nat) /\
  model_type sample_risk_request = "risk_prediction" /\
  exists resp w',
    predict sample_risk_request (startup 1%nat) = (Ok resp, w') /\
    prediction resp = lit_10.
Proof.
  split; [apply reach_startup|]. split; [reflexivity|].
  destruct (risk_prediction_saturates (startup 1%nat) sample_risk_request
              (reach_startup 1%nat) eq_refl) as (resp & w' & Hp & Hhi & _).
  exists resp, w'. split; [exact Hp|]. apply Hhi. left. vm_compute. reflexivity.
Defined.

(** *** The else branch, and the shape of the returned scores *)

Section MoreExactValues.

Open Scope Q_scope.

Lemma pow2_m53_small : 2 ^ (-53) <= 1 # 1000000.
Proof. apply Qle_bool_imp_le. vm_compute. reflexivity. Qed.

(** The product of a draw [u] in [0, 1) and a positive constant up to 1/2. *)
Lemma mul_unit_bounds_half u mc ec :
  B64.valid u = true -> B64.leb lit_0 u = true -> B64.ltb u lit_1 = true ->
  (ec <= -1)%Z -> inject_Z (Zpos mc) * 2 ^ ec <= 1 # 2 ->
  let c := S754_finite false mc ec in
  let t := B64.mul u c in
  ((exists s, t = S754_zero s) \/ (exists mt et, t = S754_finite false mt et)) /\
  0 <= B64.to_Q t /\ B64.to_Q t < B64.to_Q c + 2 ^ (-53).
Proof.
  intros Hv Hle Hlt Hec Hc c t.
  assert (Hcpos : 0 < inject_Z (Zpos mc) * 2 ^ ec).
  { apply Qmult_lt_0_compat; [reflexivity|apply pow2_pos]. }
  pose proof (pow2_pos (-53)) as Hk.
  destruct (unit_interval_cases u Hv Hle Hlt) as [[s ->]|(m & e & -> & He & Hu)].
  - subst t. unfold B64.mul, SFmul, c. cbn [xorb B64.to_Q]. split; [eauto|].
    set (k := 2 ^ (-53)) in *. split; lra.
  - subst t. unfold B64.mul, SFmul, c, B64.prec, B64.emax. cbn [xorb].
    assert (HV : inject_Z (Zpos (m * mc)) * 2 ^ (e + ec)
                 == (inject_Z (Zpos m) * 2 ^ e) * (inject_Z (Zpos mc) * 2 ^ ec)).
    { rewrite Pos2Z.inj_mul, inject_Z_mult, pow2_add. ring. }
    assert (Hupos : 0 < inject_Z (Zpos m) * 2 ^ e).
    { apply Qmult_lt_0_compat; [reflexivity|apply pow2_pos]. }
    set (U := inject_Z (Zpos m) * 2 ^ e) in *.
    set (C := inject_Z (Zpos mc) * 2 ^ ec) in *.
    assert (HUC : U * C < C) by nra.
    destruct (binary_round_aux_Q (m * mc) (e + ec) (-1) (-53)) as (Hshape & Hlo & Hhi);
      [rewrite HV; change (2 ^ (-1)) with (1 # 2); lra|lia|lia|lia|].
    split.
    { destruct Hshape as [Hz|Hf]; [left; eauto|right; exact Hf]. }
    rewrite HV in Hlo, Hhi. cbn [B64.to_Q]. fold C.
    set (k := 2 ^ (-53)) in *. split.
    + destruct Hshape as [->|(m3 & e3 & ->)]; cbn [B64.to_Q]; [lra|].
      apply Qlt_le_weak, Qmult_lt_0_compat; [reflexivity|apply pow2_pos].
    + lra.
Qed.

(** [c0 + u * c] rounded to three decimals, for [c] up to 1/2. *)
Lemma affine_draw_round_half m0 mc ec (lo hi : Z) u :
  B64.valid u = true -> B64.leb lit_0 u = true -> B64.ltb u lit_1 = true ->
  let C0 := inject_Z (Zpos m0) * 2 ^ (-53) in
  let C := inject_Z (Zpos mc) * 2 ^ ec in
  (ec <= -1)%Z -> C <= 1 # 2 -> 1 # 2 <= C0 -> C0 + C <= 99 # 100 ->
  inject_Z lo - (1 # 2) + (1 # 100) <= C0 * 1000 ->
  (C0 + C) * 1000 + (1 # 100) <= inject_Z hi + (1 # 2) ->
  exists k, (lo <= k <= hi)%Z /\
    Py.round_float
      (B64.add (S754_finite false m0 (-53)) (B64.mul u (S754_finite false mc ec))) 3
    = thousandth k.
Proof.
  intros Hv Hle Hlt C0 C Hec HC HC0 Hsum Hlo Hhi.
  destruct (mul_unit_bounds_half u mc ec Hv Hle Hlt Hec HC) as (Hshape & Ht0 & Ht1).
  cbn [B64.to_Q] in Ht1. fold C in Ht1.
  set (t := B64.mul u (S754_finite false mc ec)) in *.
  pose proof pow2_m52_small as Hk52. pose proof pow2_m53_small as Hk53.
  pose proof (pow2_pos (-52)) as Hp52.
  destruct (add_bounds m0 t HC0 Hshape) as (mr & er & Hr & Hrlo & Hrhi).
  { fold C0. set (k53 := 2 ^ (-53)) in *. lra. }
  rewrite Hr. fold C0 in Hrlo, Hrhi.
  unfold thousandth. apply round_float_range.
  - set (k53 := 2 ^ (-53)) in *. set (k52 := 2 ^ (-52)) in *.
    set (R := inject_Z (Zpos mr) * 2 ^ er) in *. lra.
  - set (k53 := 2 ^ (-53)) in *. set (k52 := 2 ^ (-52)) in *.
    set (R := inject_Z (Zpos mr) * 2 ^ er) in *. lra.
Qed.

Lemma thousandths_0_1 :
  all_from (fun k => within lit_0 lit_1 (thousandth k)) 0 (Z.to_nat 1001) = true.
Proof. vm_compute. reflexivity. Qed.

Lemma thousandths_06_09 :
  all_from (fun k => within lit_0_6 lit_0_9 (thousandth k)) 600 (Z.to_nat 301) = true.
Proof. vm_compute. reflexivity. Qed.

Lemma generic_prediction_range u :
  B64.valid u = true -> B64.leb lit_0 u = true -> B64.ltb u lit_1 = true ->
  let p := Py.round_float u 3 in
  B64.leb lit_0 p = true /\ B64.leb p lit_1 = true.
Proof.
  intros Hv Hle Hlt p.
  destruct (unit_interval_cases u Hv Hle Hlt) as [[s ->]|(m & e & -> & He & Hu)].
  - subst p. cbn [Py.round_float]. split; reflexivity.
  - assert (Hpos : 0 < inject_Z (Zpos m) * 2 ^ e).
    { apply Qmult_lt_0_compat; [reflexivity|apply pow2_pos]. }
    destruct (round_float_range m e 0 1000) as (k & Hk & Hp).
    + set (V := inject_Z (Zpos m) * 2 ^ e) in *. change (inject_Z 0) with 0. lra.
    + set (V := inject_Z (Zpos m) * 2 ^ e) in *. change (inject_Z 1000) with 1000. lra.
    + change (p = thousandth k) in Hp. rewrite Hp.
      apply (within_thousandth _ _ 0%Z (Z.to_nat 1001)); [exact thousandths_0_1|lia].
Qed.

Lemma generic_confidence_range u :
  B64.valid u = true -> B64.leb lit_0 u = true -> B64.ltb u lit_1 = true ->
  let c := Py.round_float (B64.add lit_0_6 (B64.mul u lit_0_3)) 3 in
  B64.leb lit_0_6 c = true /\ B64.leb c lit_0_9 = true.
Proof.
  intros Hv Hle Hlt c.
  destruct (affine_draw_round_half 5404319552844595 5404319552844595 (-54) 600 900
              u Hv Hle Hlt) as (k & Hk & Hc); try qle_compute; [lia|].
  change (c = thousandth k) in Hc. rewrite Hc.
  apply (within_thousandth _ _ 600%Z (Z.to_nat 301)); [exact thousandths_06_09|lia].
Qed.

End MoreExactValues.

Lemma float_eqb_eq x y : float_eqb x y = true -> x = y.
Proof.
  destruct x as [s1|s1| |s1 m1 e1], y as [s2|s2| |s2 m2 e2]; cbn [float_eqb];
    try discriminate; try reflexivity.
  - intros Hs. apply Bool.eqb_prop in Hs. congruence.
  - intros Hs. apply Bool.eqb_prop in Hs. congruence.
  - intros Hb. apply andb_prop in Hb as [Hb He]. apply andb_prop in Hb as [Hs Hm].
    apply Bool.eqb_prop in Hs. apply Pos.eqb_eq in Hm. apply Z.eqb_eq in He.
    congruence.
Qed.

Lemma thousandths_are_fixed :
  all_from (fun k => float_eqb (Py.round_float (thousandth k) 3) (thousandth k))
    0 (Z.to_nat 10001) = true.
Proof. vm_compute. reflexivity. Qed.

Lemma thousandth_round_fixed k :
  0 <= k <= 10000 -> Py.round_float (thousandth k) 3 = thousandth k.
Proof.
  intros Hk. apply float_eqb_eq.
  apply (all_from_spec
           (fun k => float_eqb (Py.round_float (thousandth k) 3) (thousandth k))
           (Z.to_nat 10001) 0 k thousandths_are_fixed).
  lia.
Qed.

Lemma risk_prediction_thousandth x :
  B64.valid x = true ->
  exists k, 0 <= k <= 10000 /\
            Py.to_float (Py.round (clamp x) 3) = thousandth k.
Proof.
  intros Hv. unfold clamp, Py.max, Py.min, Py.gt, Py.lt.
  cbn [Py.to_float]. rewrite of_Z_10.
  destruct (B64.ltb x lit_10) eqn:H10; cbn [Py.to_float]; rewrite ?of_Z_0, ?of_Z_10.
  - destruct (B64.ltb lit_0 x) eqn:H0; cbn [Py.round Py.to_float].
    + destruct (between_0_10 x Hv H0 H10) as (m & e & -> & Hlt).
      assert (Hpos : (0 < inject_Z (Zpos m) * 2 ^ e)%Q).
      { apply Qmult_lt_0_compat; [reflexivity|apply pow2_pos]. }
      apply (round_float_range m e 0 10000).
      * set (V := (inject_Z (Zpos m) * 2 ^ e)%Q) in *. change (inject_Z 0) with 0%Q. lra.
      * set (V := (inject_Z (Zpos m) * 2 ^ e)%Q) in *.
        change (inject_Z 10000) with 10000%Q. lra.
    + exists 0. split; [lia|]. rewrite of_Z_0. reflexivity.
  - change (B64.ltb lit_0 lit_10) with true. cbn [Py.round Py.to_float].
    exists 10000. split; [lia|]. rewrite of_Z_10. vm_compute. reflexivity.
Qed.

Section Shape.

Context {E : Type} `{Host E}.

(** X5: if the registry holds a record of a type other than the two
    built-in ones, a request of that type is answered by the else branch:
    under numpy's contract it gets the record's version,
    0 <= prediction <= 1 and 0.6 <= confidence <= 0.9. *)
Theorem generic_branch_response_bounds (w : World E) rq m :
  numpy_contract ->
  find_model (registry w) (model_type rq) = Some m ->
  model_type rq <> "risk_prediction" -> model_type rq <> "data_quality" ->
  exists resp w', predict rq w = (Ok resp, w') /\
    model_version resp = mr_version m /\
    B64.leb lit_0 (prediction resp) = true /\
    B64.leb (prediction resp) lit_1 = true /\
    B64.leb lit_0_6 (confidence resp) = true /\
    B64.leb (confidence resp) lit_0_9 = true.
Proof.
  intros [_ Hrandom] Hfind Hn1 Hn2.
  unfold predict. rewrite predict_with_eq, Hfind. unfold scores_with.
  destruct (String.eqb_spec (model_type rq) "risk_prediction") as [|_]; [contradiction|].
  destruct (String.eqb_spec (model_type rq) "data_quality") as [|_]; [contradiction|].
  rewrite generic_branch_eq. cbv zeta. unfold respond. do 2 eexists.
  split; [reflexivity|].
  cbn [prediction confidence model_version fst snd Py.round Py.to_float].
  destruct (Hrandom (host w)) as (Hu & Hu0 & Hu1).
  destruct (Hrandom (snd (np_random_random (host w)))) as (Hu' & Hu0' & Hu1').
  destruct (generic_prediction_range _ Hu Hu0 Hu1) as [Hp0 Hp1].
  destruct (generic_confidence_range _ Hu' Hu0' Hu1') as [Hc0 Hc1].
  auto 6.
Qed.

(** X6: under numpy's contract, on every reachable state, the two scores
    of a successful response are decimals with at most three places, each
    the double of k/1000 for an integer 0 <= k <= 10000, and rounding them
    to three decimals again returns them unchanged. *)
Theorem scores_have_three_decimals (w : World E) rq :
  numpy_contract -> reachable w ->
  model_type rq = "risk_prediction" \/ model_type rq = "data_quality" ->
  exists resp w', predict rq w = (Ok resp, w') /\
    (exists k, 0 <= k <= 10000 /\ prediction resp = thousandth k) /\
    (exists k, 0 <= k <= 10000 /\ confidence resp = thousandth k) /\
    Py.round_float (prediction resp) 3 = prediction resp /\
    Py.round_float (confidence resp) 3 = confidence resp.
Proof.
  intros [Hnormal Hrandom] Hreach Hty.
  assert (Hshape : exists resp w', predict rq w = (Ok resp, w') /\
            (exists k, 0 <= k <= 10000 /\ prediction resp = thousandth k) /\
            (exists k, 0 <= k <= 10000 /\ confidence resp = thousandth k)).
  { unfold predict. rewrite predict_with_eq, (reachable_registry w Hreach).
    destruct Hty as [Hty|Hty]; rewrite Hty.
    - change (scores_with generic_branch "risk_prediction" w) with (risk_branch w).
      cbn [find_model find MOCK_MODELS mr_type String.eqb Ascii.eqb Bool.eqb].
      rewrite risk_branch_eq. cbv zeta. unfold respond. do 2 eexists.
      split; [reflexivity|]. cbn [prediction confidence fst snd].
      set (d1 := np_random_normal lit_6_5 lit_1_5 (host w)).
      pose proof (Hnormal lit_6_5 lit_1_5 (host w)) as Hv. fold d1 in Hv.
      destruct (Hrandom (snd d1)) as (Hu & Hu0 & Hu1).
      split; [exact (risk_prediction_thousandth (fst d1) Hv)|].
      cbn [Py.round Py.to_float].
      destruct (affine_draw_round 6755399441055744 7205759403792794 (-55) 750 950
                  _ Hu Hu0 Hu1) as (k & Hk & Hc); try qle_compute; [lia|].
      exists k. split; [lia|exact Hc].
    - change (scores_with generic_branch "data_quality" w) with (quality_branch w).
      cbn [find_model find MOCK_MODELS mr_type String.eqb Ascii.eqb Bool.eqb].
      rewrite quality_branch_eq. cbv zeta. unfold respond. do 2 eexists.
      split; [reflexivity|]. cbn [prediction confidence fst snd Py.round Py.to_float].
      destruct (Hrandom (host w)) as (Hu & Hu0 & Hu1).
      destruct (Hrandom (snd (np_random_random (host w)))) as (Hu' & Hu0' & Hu1').
      destruct (affine_draw_round 6305039478318694 4503599627370496 (-54) 700 950
                  _ Hu Hu0 Hu1) as (k & Hk & Hp); try qle_compute; [lia|].
      destruct (affine_draw_round 7205759403792794 5404319552844595 (-55) 800 950
                  _ Hu' Hu0' Hu1') as (k' & Hk' & Hc); try qle_compute; [lia|].
      split; [exists k|exists k']; (split; [lia|assumption]). }
  destruct Hshape as (resp & w' & Hp & (k & Hk & Hpk) & (k' & Hk' & Hck)).
  exists resp, w'. split; [exact Hp|].
  split; [eauto|]. split; [eauto|].
  rewrite Hpk, Hck. split; apply thousandth_round_fixed; assumption.
Qed.

End Shape.

Lemma predict_succeeds_iff_listed_witness :
  fst (get_models sample_dynamic_world)
  = Ok (List.map ModelInfo_of (registry sample_dynamic_world)) /\
  exists resp w',
    predict sample_unknown_request sample_dynamic_world = (Ok resp, w').
Proof.
  split; [reflexivity|].
  destruct (predict_succeeds_iff_listed sample_dynamic_world sample_unknown_request
              _ eq_refl) as [[_ Hlisted] _].
  apply Hlisted. eexists. split; [right; right; left; reflexivity|reflexivity].
Defined.

Lemma health_count_matches_models_witness :
  exists r w', health_check sample_dynamic_world = (Ok r, w') /\
               models_loaded r = 3.
Proof.
  exact (health_count_matches_models sample_dynamic_world _ eq_refl).
Defined.


Lemma generic_branch_response_bounds_witness :
  numpy_contract (E := nat) /\
  exists resp w',
    predict sample_unknown_request sample_dynamic_world = (Ok resp, w') /\
    model_version resp = "0.3.0-local" /\
    B64.leb lit_0 (prediction resp) = true /\
    B64.leb (prediction resp) lit_1 = true /\
    B64.leb lit_0_6 (confidence resp) = true /\
    B64.leb (confidence resp) lit_0_9 = true.
Proof.
  split; [exact scripted_contract|].
  refine (generic_branch_response_bounds sample_dynamic_world sample_unknown_request
            _ scripted_contract eq_refl _ _);
    intros Habs; discriminate Habs.
Defined.

Lemma scores_have_three_decimals_witness :
  numpy_contract (E := nat) /\ reachable (startup 0%nat) /\
  exists resp w',
    predict sample_quality_request (startup 0%nat) = (Ok resp, w') /\
    Py.round_float (prediction resp) 3 = prediction resp /\
    Py.round_float (confidence resp) 3 = confidence resp.
Proof.
  split; [exact scripted_contract|]. split; [apply reach_startup|].
  destruct (scores_have_three_decimals (startup 0%nat) sample_quality_request
              scripted_contract (reach_startup 0%nat) (or_intror eq_refl))
    as (resp & w' & Hp & _ & _ & Hrp & Hrc).
  exists resp, w'. auto.
Defined.
